(** * FMTM front-end: project creation, project API thunks, submissions table
      and the map adapter, embedded shallowly and checked against the
      natural-language specification.

    Layout.  Part I embeds the code: a small fragment of JavaScript
    (values, truthiness, strings, the stateful global regular expression,
    browser interval timers, a trace/exception monad for thunks), then one
    module per source file.  Part II states and proves the properties,
    Part III further properties of the same code. *)

From stdpp Require Import gmap strings list fin_maps pretty.
From Stdlib Require Import ZArith Lia Ascii String.

Set Warnings "-register-all".
Set Default Proof Using "Type".

(* ===================================================================== *)
(** * Part I.  The embedding                                              *)
(* ===================================================================== *)

(** ** The JavaScript fragment the sources rely on *)
Module JS.

(** JSON-like run-time values.  Numbers are the integers the code handles
    (page numbers, ids, enum members, timer ids) plus [NaN]; fractions and
    infinities do not occur in the modelled paths.  An object is a finite
    map from property names to values. *)
Inductive value :=
  | VUndefined
  | VNull
  | VBool (b : bool)
  | VNum (n : Z)
  | VNaN
  | VStr (s : string)
  | VArr (l : list value)
  | VObj (m : gmap string value).

(** What a [throw] carries.  Every handler of the modelled code discards
    it, so only the kind is kept. *)
Inductive exn :=
  | TypeError (msg : string)
  | RequestError (msg : string).

Inductive result (A : Type) :=
  | Ok (a : A)
  | Throw (e : exn).
Arguments Ok {A} a.
Arguments Throw {A} e.

(** ToBoolean. *)
Definition truthy (v : value) : bool :=
  match v with
  | VUndefined | VNull | VNaN => false
  | VBool b => b
  | VNum n => negb (n =? 0)%Z
  | VStr s => match s with EmptyString => false | String _ _ => true end
  | VArr _ | VObj _ => true
  end.

(** [a || b] and [a && b] on values. *)
Definition js_or (a b : value) : value := if truthy a then a else b.
Definition js_and (a b : value) : value := if truthy a then b else a.

(** [a === b] for primitives.  Two objects (or arrays) are identical only
    when they are the same reference; the modelled code never compares
    objects with [===], so that case is reported as [false]. *)
Definition strict_eq (a b : value) : bool :=
  match a, b with
  | VUndefined, VUndefined => true
  | VNull, VNull => true
  | VBool x, VBool y => Bool.eqb x y
  | VNum x, VNum y => (x =? y)%Z
  | VStr x, VStr y => String.eqb x y
  | _, _ => false
  end.

(** [Object.is] on primitives, the comparison React applies to effect
    dependencies: like [===] except that [NaN] is the same as [NaN]. *)
Definition same_value (a b : value) : bool :=
  match a, b with
  | VNaN, VNaN => true
  | _, _ => strict_eq a b
  end.

(** ToString, as applied by template literals and by [RegExp.test]. *)
Fixpoint to_string (v : value) : string :=
  match v with
  | VUndefined => "undefined"
  | VNull => "null"
  | VBool true => "true"
  | VBool false => "false"
  | VNum n => pretty n
  | VNaN => "NaN"
  | VStr s => s
  | VArr l =>
      (fix join (l : list value) : string :=
         match l with
         | [] => ""
         | x :: r =>
             let e := match x with
                      | VUndefined | VNull => ""
                      | _ => to_string x
                      end in
             match r with
             | [] => e
             | _ :: _ => e +:+ "," +:+ join r
             end
         end) l
  | VObj _ => "[object Object]"
  end.

(** [v?.k]: [undefined] on a nullish receiver, the property otherwise.
    Only own data properties of objects are modelled. *)
Definition opt_get (v : value) (k : string) : value :=
  match v with
  | VObj m => default VUndefined (m !! k)
  | _ => VUndefined
  end.

(** [v.k]: a [TypeError] on a nullish receiver. *)
Definition get (v : value) (k : string) : result value :=
  match v with
  | VUndefined | VNull =>
      Throw (TypeError ("Cannot read properties of " +:+ to_string v))
  | _ => Ok (opt_get v k)
  end.

(** [v[i]] for an array index. *)
Definition get_index (v : value) (i : nat) : result value :=
  match v with
  | VUndefined | VNull =>
      Throw (TypeError ("Cannot read properties of " +:+ to_string v))
  | VArr l => Ok (default VUndefined (l !! i))
  | _ => Ok VUndefined
  end.

(** [{ ...a, ...b }]: the properties of [b] win. *)
Definition spread (a b : value) : gmap string value :=
  match a, b with
  | VObj ma, VObj mb => mb ∪ ma
  | VObj ma, _ => ma
  | _, VObj mb => mb
  | _, _ => ∅
  end.

(** *** Strings *)

(** Index of the first [c] at a position not before [from]. *)
Fixpoint find_from (c : ascii) (from : nat) (s : string) : option nat :=
  match s with
  | EmptyString => None
  | String a s' =>
      match from with
      | O => if Ascii.eqb a c then Some O else S <$> find_from c O s'
      | S k => S <$> find_from c k s'
      end
  end.

Fixpoint drop_string (n : nat) (s : string) : string :=
  match n, s with
  | O, _ => s
  | S k, String _ s' => drop_string k s'
  | S _, EmptyString => EmptyString
  end.

Fixpoint rev_string_onto (s acc : string) : string :=
  match s with
  | EmptyString => acc
  | String a s' => rev_string_onto s' (String a acc)
  end.
Definition rev_string (s : string) : string := rev_string_onto s EmptyString.

(** [s.split(sep)] for a non-empty separator: [cur] holds the current
    piece reversed, [fuel] bounds the walk by the length of [s]. *)
Fixpoint split_go (fuel : nat) (sep s cur : string) : list string :=
  match fuel with
  | O => [rev_string cur]
  | S fuel' =>
      match s with
      | EmptyString => [rev_string cur]
      | String a s' =>
          if String.prefix sep s
          then rev_string cur
               :: split_go fuel' sep (drop_string (String.length sep) s) EmptyString
          else split_go fuel' sep s' (String a cur)
      end
  end.

Fixpoint chars (s : string) : list string :=
  match s with
  | EmptyString => []
  | String a s' => String a EmptyString :: chars s'
  end.

Definition split (sep s : string) : list string :=
  match sep with
  | EmptyString => chars s
  | String _ _ => split_go (S (String.length s)) sep s EmptyString
  end.

(** White space removed by [trim] (the ASCII members of the class). *)
Definition is_space (a : ascii) : bool :=
  let n := nat_of_ascii a in
  (n =? 32)%nat || ((9 <=? n)%nat && (n <=? 13)%nat).

Fixpoint trim_start (s : string) : string :=
  match s with
  | EmptyString => EmptyString
  | String a s' => if is_space a then trim_start s' else s
  end.

Definition trim (s : string) : string :=
  rev_string (trim_start (rev_string (trim_start s))).

(** *** [parseInt(s)] with the default radix *)

Definition digit_of (radix : Z) (a : ascii) : option Z :=
  let n := Z.of_nat (nat_of_ascii a) in
  let d := if (48 <=? n)%Z && (n <=? 57)%Z then Some (n - 48)%Z
           else if (97 <=? n)%Z && (n <=? 122)%Z then Some (n - 87)%Z
           else if (65 <=? n)%Z && (n <=? 90)%Z then Some (n - 55)%Z
           else None in
  match d with
  | Some k => if (k <? radix)%Z then Some k else None
  | None => None
  end.

(** Longest prefix of digits; [None] when there is no digit at all. *)
Fixpoint digits (radix : Z) (s : string) (acc : option Z) : option Z :=
  match s with
  | EmptyString => acc
  | String a s' =>
      match digit_of radix a with
      | Some d => digits radix s' (Some (default 0%Z acc * radix + d)%Z)
      | None => acc
      end
  end.

Definition parseInt (s : string) : value :=
  let s := trim_start s in
  let '(neg, s) :=
    match s with
    | String "-"%char s' => (true, s')
    | String "+"%char s' => (false, s')
    | _ => (false, s)
    end in
  let '(radix, s) :=
    match s with
    | String "0"%char (String "x"%char s')
    | String "0"%char (String "X"%char s') => (16%Z, s')
    | _ => (10%Z, s)
    end in
  match digits radix s None with
  | Some n => VNum (if neg then - n else n)%Z
  | None => VNaN
  end.

(** Numeric operators on the number values ([undefined] converts to
    [NaN], [null] to 0, booleans to 0 and 1; strings are not converted
    here since no modelled operand is one). *)
Definition to_number (v : value) : option Z :=
  match v with
  | VNum n => Some n
  | VNull => Some 0%Z
  | VBool b => Some (if b then 1 else 0)%Z
  | _ => None
  end.

Definition of_number (o : option Z) : value :=
  match o with Some n => VNum n | None => VNaN end.


(** *** Global regular expressions *)

(** [re.test(s)] for the one-character pattern [/c/g].  The [g] flag makes
    the object stateful: the search starts at [lastIndex], a match moves
    [lastIndex] just past itself, a failure resets it to 0. *)
Definition regex_test_g (c : ascii) (lastIndex : nat) (s : string) : bool * nat :=
  match find_from c lastIndex s with
  | Some i => (true, S i)
  | None => (false, O)
  end.

(** *** Traces and exceptions *)

(** A computation that logs events of type [E] and ends normally or by a
    throw. *)
Definition M (E A : Type) : Type := result A * list E.

Definition ret {E A} (a : A) : M E A := (Ok a, []).
Definition throw {E A} (e : exn) : M E A := (Throw e, []).
Definition tell {E} (e : E) : M E unit := (Ok tt, [e]).
Definition lift {E A} (r : result A) : M E A := (r, []).

Definition bind {E A B} (m : M E A) (f : A → M E B) : M E B :=
  match m with
  | (Ok a, t) => let '(r, t') := f a in (r, t ++ t')
  | (Throw e, t) => (Throw e, t)
  end.

(** [try { body } catch (e) { handler } finally { fin }]. *)
Definition try_catch_finally {E A}
    (body : M E A) (handler : exn → M E A) (fin : M E unit) : M E A :=
  let '(r, t) := body in
  let '(r1, t1) := match r with
                   | Ok a => (Ok a, [])
                   | Throw e => handler e
                   end in
  let '(rf, tf) := fin in
  (match rf with Ok _ => r1 | Throw e => Throw e end, t ++ t1 ++ tf).

(** [try { body } catch (e) { handler }]. *)
Definition try_catch {E A} (body : M E A) (handler : exn → M E A) : M E A :=
  try_catch_finally body handler (ret tt).

Definition trace {E A} (m : M E A) : list E := m.2.
Definition outcome {E A} (m : M E A) : result A := m.1.

(** [l.map(f)] where [f] may throw. *)
Fixpoint map_result {A B} (f : A → result B) (l : list A) : result (list B) :=
  match l with
  | [] => Ok []
  | x :: r =>
      match f x with
      | Throw e => Throw e
      | Ok y => match map_result f r with
                | Throw e => Throw e
                | Ok ys => Ok (y :: ys)
                end
      end
  end.

End JS.

(** The monad structure is registered with stdpp's classes, so that
    [x ← m; k] and [m;; k] sequence thunks. *)
#[export] Instance M_ret {E} : MRet (JS.M E) := λ A a, JS.ret a.
#[export] Instance M_bind {E} : MBind (JS.M E) := λ A B f m, JS.bind m f.

(** ** Redux actions and observable effects *)

(** Action creators of [CreateProjectSlice] (store/slices/CreateProjectSlice.ts). *)
Module CreateProjectActions.
Import JS.
Inductive t :=
  | SetProjectDetails (key : string) (v : value)
  | CreateProjectLoading (payload : value)
  | PostProjectDetails (payload : value)
  | ClearCreateProjectFormData
  | SetIndividualProjectDetailsData (payload : value)
  | GenerateProjectQRSuccess (payload : value)
  | SetGenerateProjectQRSuccess (payload : value)
  | GenerateProjectLogLoading (payload : value)
  | SetGenerateProjectLog (payload : value)
  | SetDividedTaskGeojson (payload : value)
  | SetDrawnGeojson (payload : value)
  | GetTaskSplittingPreview (payload : value)
  | SetSplitTasksSelection (payload : value)
  | SetIsUnsavedChanges (payload : value)
  | SetCanSwitchCreateProjectSteps (payload : value)
  | SetIsTasksGenerated (key : string) (v : value)
  | ClearProjectStepState (payload : value)
  | SetToggleSplittedGeojsonEdit (payload : value).
End CreateProjectActions.

(** Action creators of [ProjectSlice], as [api/Project.js] uses them. *)
Module ProjectActions.
Import JS.
Inductive t :=
  | SetProjectDetialsLoading (loading : bool)
  | SetProjectTaskBoundries (payload : value)
  | SetProjectInfo (payload : value)
  | SetNewProjectTrigger
  | SetDownloadProjectFormLoading (type : value) (loading : bool)
  | SetDownloadDataExtractLoading (loading : bool)
  | SetTilesListLoading (loading : bool)
  | SetTilesList (payload : value)
  | SetGenerateProjectTilesLoading (loading : bool)
  | SetDownloadTileLoading (type : value) (loading : bool)
  | SetProjectDashboardLoading (loading : bool)
  | SetProjectDashboardDetail (payload : value).
End ProjectActions.

(** Action creators of [CommonSlice], as the views use them. *)
Module CommonActions.
Import JS.
Inductive t :=
  | SetSnackBar (open : bool) (message variant : string) (duration : Z)
  | SetCurrentStepFormStep (flag : value) (step : Z).
End CommonActions.

Module Redux.
Import JS.

(** What can be handed to [dispatch].  The thunks of
    [api/CreateProjectService] are not part of the sources; a dispatch of
    one of them is recorded with its name and arguments and has no further
    meaning here. *)
Inductive action :=
  | CreateProject (a : CreateProjectActions.t)
  | Project (a : ProjectActions.t)
  | Common (a : CommonActions.t)
  | Service (name : string) (args : list value).

(** Effects a handler has on its surroundings, in program order. *)
Inductive event :=
  | Dispatch (a : action)
  | AxiosGet (url : string)
  | AnchorClick (href download : value)
  | Navigate (url : string)
  | SetInterval (id : nat) (delay : Z)
  | ClearInterval (handle : option nat)
  | SetToggleStatus (b : bool)
  | HandleCustomChange (key : string) (v : value)
  | Spawn (sub : list event).

End Redux.

(** ** store/slices/CreateProjectSlice.ts *)
Module CreateProjectSlice.
Import JS CreateProjectActions.

(** The slice state is the JavaScript object itself: property name to
    value.  [state.k] reads with [field], [state.k = v] is an insert. *)
Abbreviation State := (gmap string value).

Definition field (st : State) (k : string) : value := default VUndefined (st !! k).

Definition obj (l : list (string * value)) : value := VObj (list_to_map l).

Definition initialProjectDetails : list (string * value) :=
  [ ("dimension", VNum 10); ("no_of_buildings", VNum 5); ("hashtags", VStr "");
    ("name", VStr ""); ("short_description", VStr "");
    ("odk_central_url", VStr ""); ("odk_central_user", VStr "");
    ("odk_central_password", VStr ""); ("description", VStr "");
    ("organisation_id", VNull) ].

Definition initialState : State :=
  list_to_map
  [ ("editProjectDetails",
       obj [("name", VStr ""); ("description", VStr ""); ("short_description", VStr "")]);
    ("editProjectResponse", VNull);
    ("projectDetails", obj (initialProjectDetails ++ [("per_task_instructions", VStr "")]));
    ("projectDetailsResponse", VNull);
    ("projectDetailsLoading", VBool false);
    ("editProjectDetailsLoading", VBool false);
    ("projectArea", VNull);
    ("projectAreaLoading", VBool false);
    ("formCategoryList", VArr []);
    ("formCategoryLoading", VBool false);
    ("generateQrLoading", VBool false);
    ("organisationList", VArr []);
    ("organisationListLoading", VBool false);
    ("generateQrSuccess", VNull);
    ("generateProjectLogLoading", VBool false);
    ("generateProjectLog", VNull);
    ("createProjectStep", VNum 1);
    ("dividedTaskLoading", VBool false);
    ("dividedTaskGeojson", VNull);
    ("formUpdateLoading", VBool false);
    ("taskSplittingGeojsonLoading", VBool false);
    ("taskSplittingGeojson", VNull);
    ("updateBoundaryLoading", VBool false);
    ("drawnGeojson", VNull);
    ("drawToggle", VBool false);
    ("validateCustomFormLoading", VBool false);
    ("validateCustomFormResponse", VNull);
    ("uploadAreaSelection", VStr "");
    ("totalAreaSelection", VNull);
    ("splitTasksSelection", VNull);
    ("dataExtractGeojson", VNull);
    ("createProjectValidations", VObj ∅);
    ("isUnsavedChanges", VBool false);
    ("canSwitchCreateProjectSteps", VBool false);
    ("isTasksGenerated",
       obj [("divide_on_square", VBool false); ("task_splitting_algorithm", VBool false)]);
    ("isFgbFetching", VBool false);
    ("toggleSplittedGeojsonEdit", VBool false);
    ("customFileValidity", VBool false) ].

(** The reducers.  A reducer that throws (only [GenerateProjectQRSuccess]
    can, on a nullish payload) leaves the state as it was. *)
Definition reducer (a : CreateProjectActions.t) (state : State) : State :=
  match a with
  | SetProjectDetails key v =>
      <["projectDetails" :=
          VObj (<[key := v]> (spread (field state "projectDetails") VUndefined))]> state
  | CreateProjectLoading payload => <["projectDetailsLoading" := payload]> state
  | PostProjectDetails payload => <["projectDetailsResponse" := payload]> state
  | ClearCreateProjectFormData =>
      <["dividedTaskLoading" := VBool false]>
      (<["dividedTaskGeojson" := VNull]>
      (<["uploadAreaSelection" := VStr ""]>
      (<["isUnsavedChanges" := VBool false]>
      (<["generateProjectLogLoading" := VBool false]>
      (<["generateProjectLog" := VNull]>
      (<["drawnGeojson" := VNull]>
      (<["taskSplittingGeojson" := VNull]>
      (<["dataExtractGeojson" := VNull]>
      (<["splitTasksSelection" := VNull]>
      (<["totalAreaSelection" := VNull]>
      (<["projectArea" := VNull]>
      (<["projectDetails" := obj initialProjectDetails]> state))))))))))))
  | SetIndividualProjectDetailsData payload => <["projectDetails" := payload]> state
  | GenerateProjectQRSuccess payload =>
      match get payload "status" with
      | Throw _ => state
      | Ok status =>
          if strict_eq status (VStr "SUCCESS")
          then <["generateQrSuccess" := VNull]> state
          else <["generateQrSuccess" := payload]> state
      end
  | SetGenerateProjectQRSuccess payload => <["generateQrSuccess" := payload]> state
  | GenerateProjectLogLoading payload => <["generateProjectLogLoading" := payload]> state
  | SetGenerateProjectLog payload => <["generateProjectLog" := payload]> state
  | SetDividedTaskGeojson payload => <["dividedTaskGeojson" := payload]> state
  | SetDrawnGeojson payload => <["drawnGeojson" := payload]> state
  | GetTaskSplittingPreview payload =>
      <["taskSplittingGeojson" := payload]> (<["dividedTaskGeojson" := payload]> state)
  | SetSplitTasksSelection payload => <["splitTasksSelection" := payload]> state
  | SetIsUnsavedChanges payload => <["isUnsavedChanges" := payload]> state
  | SetCanSwitchCreateProjectSteps payload =>
      <["canSwitchCreateProjectSteps" := payload]> state
  | SetIsTasksGenerated key v =>
      <["isTasksGenerated" :=
          VObj (<[key := v]> (spread (field state "isTasksGenerated") VUndefined))]> state
  | ClearProjectStepState payload =>
      <["projectDetails" :=
          VObj (<["customPolygonUpload" := VNull]>
               (<["customLineUpload" := VNull]> (spread payload VUndefined)))]>
      (<["dataExtractGeojson" := VNull]>
      (<["splitTasksSelection" := VNull]>
      (<["dividedTaskGeojson" := VNull]> state)))
  | SetToggleSplittedGeojsonEdit payload => <["toggleSplittedGeojsonEdit" := payload]> state
  end.

(** The root reducer seen from this slice: actions of other slices and
    thunks leave it alone. *)
Definition root (a : Redux.action) (state : State) : State :=
  match a with
  | Redux.CreateProject a => reducer a state
  | _ => state
  end.

End CreateProjectSlice.

(** ** CreateProjectValidation (unnamed/part_001), the validator that
       ProjectDetailsForm.tsx imports from
       components/createnewproject/validation *)
Module Validation.
Import JS.

Section CreateProjectValidation.

(** [isValidUrl] lives in [utilfunctions/urlChecker], outside the sources
    at hand; the validator is embedded over any such predicate. *)
Variable isValidUrl : value → bool.

(** [const regexForSymbol = /_/g] is a module-level object: its
    [lastIndex] survives from one call of the validator to the next, so
    the validator takes it and returns it. *)
Definition regexForSymbol_test : nat → string → bool * nat := regex_test_g "_".

(** [errors.k = msg]. *)
Definition set_error (k msg : string) (cond : bool) (errors : gmap string string)
  : gmap string string :=
  if cond then <[k := msg]> errors else errors.

Definition CreateProjectValidation (values : value) (lastIndex : nat)
  : gmap string string * nat :=
  let errors : gmap string string := ∅ in
  let errors :=
    set_error "organisation_id" "Organization is Required."
      (negb (truthy (opt_get values "organisation_id"))) errors in
  let errors :=
    set_error "odk_central_url" "ODK URL is Required."
      (negb (truthy (opt_get values "defaultODKCredentials"))
       && negb (truthy (opt_get values "odk_central_url"))) errors in
  let errors :=
    set_error "odk_central_url" "Invalid URL."
      (negb (truthy (opt_get values "defaultODKCredentials"))
       && truthy (opt_get values "odk_central_url")
       && negb (isValidUrl (opt_get values "odk_central_url"))) errors in
  let errors :=
    set_error "odk_central_user" "ODK Central User is Required."
      (negb (truthy (opt_get values "defaultODKCredentials"))
       && negb (truthy (opt_get values "odk_central_user"))) errors in
  let errors :=
    set_error "odk_central_password" "ODK Central Password is Required."
      (negb (truthy (opt_get values "defaultODKCredentials"))
       && negb (truthy (opt_get values "odk_central_password"))) errors in
  let errors :=
    set_error "name" "Project Name is Required."
      (negb (truthy (opt_get values "name"))) errors in
  (* [values?.name && regexForSymbol.test(values.name)]: the regular
     expression is consulted, and its [lastIndex] moved, only for a truthy
     name *)
  let '(has_symbol, lastIndex) :=
    if truthy (opt_get values "name")
    then regexForSymbol_test lastIndex (to_string (opt_get values "name"))
    else (false, lastIndex) in
  let errors :=
    set_error "name" "Project Name should not contain _ ." has_symbol errors in
  let errors :=
    set_error "short_description" "Short Description is Required."
      (negb (truthy (opt_get values "short_description"))) errors in
  let errors :=
    set_error "description" "Description is Required."
      (negb (truthy (opt_get values "description"))) errors in
  (errors, lastIndex).

End CreateProjectValidation.

(** Modelled from the spec: the [useForm] hook ([hooks/useForm], which the
    views import but the sources at hand do not contain).  The spec has form
    validation failures surfaced per field and blocking: on submit the hook
    runs the validator on the current values, keeps the returned object as
    [errors], and runs the submission callback only when that object has no
    key.  [validate] threads the state the validator owns. *)
Definition handleSubmit {S E : Type}
    (validate : value → S → gmap string string * S)
    (callback : list E) (values : value) (s : S)
  : gmap string string * S * list E :=
  let '(errors, s') := validate values s in
  (errors, s', if decide (dom errors = ∅) then callback else []).

End Validation.

(** ** components/createnewproject/ProjectDetailsForm.tsx *)
Module ProjectDetailsForm.
Import JS Redux.

(** [submission]: store the values, advance the wizard, go to the next
    page. *)
Definition submission (flag values : value) : list event :=
  [ Dispatch (CreateProject (CreateProjectActions.SetIndividualProjectDetailsData values));
    Dispatch (Common (CommonActions.SetCurrentStepFormStep flag 2));
    Navigate "/upload-area" ].

(** [useForm(projectDetails, submission, CreateProjectValidation)]: what
    pressing NEXT does. *)
Definition onSubmit (isValidUrl : value → bool) (flag values : value) (lastIndex : nat)
  : gmap string string * nat * list event :=
  Validation.handleSubmit (Validation.CreateProjectValidation isValidUrl)
    (submission flag values) values lastIndex.

End ProjectDetailsForm.

(** ** Browser interval timers and the component monad *)
Module Browser.
Import JS Redux.

(** An interval registered with [setInterval]: its period in milliseconds
    and what its callback does each time it fires. *)
Record interval := Interval { delay : Z; callback : list event }.

(** The part of the running page the SplitTasks view touches: the Redux
    slice, the module-level variable [generateProjectLogIntervalCb]
    ([None] is [null]), the intervals the page has running, and the next
    timer id (ids are handed out in increasing order and never reused). *)
Record world := World {
  store : gmap string value;
  generateProjectLogIntervalCb : option nat;
  timers : gmap nat interval;
  next_timer : nat;
}.

(** Component code: reads and writes the world, logs its effects. *)
Definition C (A : Type) : Type := world → A * world * list event.

Definition c_ret {A} (a : A) : C A := λ w, (a, w, []).
Definition c_bind {A B} (m : C A) (f : A → C B) : C B :=
  λ w, let '(a, w1, t1) := m w in
       let '(b, w2, t2) := f a w1 in
       (b, w2, t1 ++ t2).

Definition log (e : event) : C unit := λ w, (tt, w, [e]).

(** [dispatch(action)]: the store is updated at once. *)
Definition dispatch (a : action) : C unit :=
  λ w, (tt,
        World (CreateProjectSlice.root a (store w))
              (generateProjectLogIntervalCb w) (timers w) (next_timer w),
        [Dispatch a]).

(** What is still running after the interval with handle [h] is
    cancelled; [null] and ids of intervals already cancelled change
    nothing. *)
Definition cancel (h : option nat) (running : gmap nat interval)
  : gmap nat interval :=
  match h with
  | Some id => delete id running
  | None => running
  end.

(** [clearInterval(h)] *)
Definition clearInterval (h : option nat) : C unit :=
  λ w, (tt,
        World (store w) (generateProjectLogIntervalCb w)
              (cancel h (timers w)) (next_timer w),
        [ClearInterval h]).

(** [setInterval(cb, ms)]: registers the interval under a fresh id and
    returns the id. *)
Definition setInterval (cb : list event) (ms : Z) : C nat :=
  λ w, let id := next_timer w in
       (id,
        World (store w) (generateProjectLogIntervalCb w)
              (<[id := Interval ms cb]> (timers w)) (S id),
        [SetInterval id ms]).

Definition get_handle : C (option nat) :=
  λ w, (generateProjectLogIntervalCb w, w, []).
Definition set_handle (h : option nat) : C unit :=
  λ w, (tt, World (store w) h (timers w) (next_timer w), []).

Definition when (b : bool) (m : C unit) : C unit := if b then m else c_ret tt.

Definition run {A} (m : C A) (w : world) : world := (m w).1.2.
Definition events {A} (m : C A) (w : world) : list event := (m w).2.

(** A running interval fires: its callback's effects happen, the interval
    stays registered with the same period. *)
Definition tick (id : nat) : C unit :=
  λ w, (tt, w, match timers w !! id with
               | Some i => callback i
               | None => []
               end).

End Browser.

#[export] Instance C_ret : MRet Browser.C := λ A a, Browser.c_ret a.
#[export] Instance C_bind : MBind Browser.C := λ A B f m, Browser.c_bind m f.

(** ** The SplitTasks view (unnamed/part_000) *)
Module SplitTasks.
Import JS Redux Browser.
Import CreateProjectActions CommonActions.

(** [task_split_type] comes from [types/enums], outside the sources at
    hand: three numeric enum members. *)
Record task_split_type_enum := TaskSplitType {
  divide_on_square : Z;
  choose_area_as_task : Z;
  task_splitting_algorithm : Z;
}.

Section SplitTasks.

Variable task_split_type : task_split_type_enum.
(** [import.meta.env.VITE_API_URL] *)
Variable VITE_API_URL : string.
(** [environment.encode], outside the sources at hand. *)
Variable encode : value → string.

Definition sel (st : gmap string value) (k : string) : value :=
  CreateProjectSlice.field st k.

(** The thunk [GenerateProjectLog(url, { project_id, uuid })] of
    [api/CreateProjectService]. *)
Definition GenerateProjectLog (project_id uuid : value) : action :=
  Service "GenerateProjectLog"
    [ VStr (VITE_API_URL +:+ "/projects/generate-log/");
      CreateProjectSlice.obj [("project_id", project_id); ("uuid", uuid)] ].

(** *** Clearing the split geometry (the effect on [splitTasksSelection]) *)
Definition effect_selection (splitTasksSelection : value) : C unit :=
  when (strict_eq splitTasksSelection (VNum (choose_area_as_task task_split_type)))
       (dispatch (CreateProject (SetDividedTaskGeojson VNull))).

(** The radio button's [onChangeData]. *)
Definition onChangeData (v : string) : C unit :=
  log (HandleCustomChange "task_split_type" (parseInt v));;
  dispatch (CreateProject (SetSplitTasksSelection (parseInt v)));;
  when (strict_eq (VNum (choose_area_as_task task_split_type)) (parseInt v))
       (dispatch (CreateProject (SetIsTasksGenerated "divide_on_square" (VBool false)));;
        dispatch (CreateProject (SetIsTasksGenerated "task_splitting_algorithm" (VBool false)))).

(** The render that follows: React re-runs the effect when its dependency
    [splitTasksSelection] is not the same value as at the previous
    render. *)
Definition rerender_selection (previous : value) : C unit :=
  λ w, let current := sel (store w) "splitTasksSelection" in
       when (negb (same_value previous current)) (effect_selection current) w.

(** The user picks an option, then the view re-renders. *)
Definition select_option (v : string) : C unit :=
  λ w, (onChangeData v;;
        rerender_selection (sel (store w) "splitTasksSelection")) w.

(** *** Submission *)

(** [hashtags?.split('#').map((item) => item.trim()).filter(Boolean)] *)
Definition arrayHashtag (hashtags : value) : result value :=
  match hashtags with
  | VUndefined | VNull => Ok VUndefined
  | VStr s =>
      Ok (VArr (VStr <$> filter (λ item, item ≠ "") (trim <$> split "#" s)))
  | _ => Throw (TypeError "hashtags.split is not a function")
  end.

(** The object [projectData] as sent to the creation service. *)
Definition projectData (projectDetails splitTasksSelection
    dividedTaskGeojson drawnGeojson hashtags : value) : gmap string value :=
  let projectData : gmap string value :=
    list_to_map
    [ ("project_info",
         CreateProjectSlice.obj
         [ ("name", opt_get projectDetails "name");
           ("short_description", opt_get projectDetails "short_description");
           ("description", opt_get projectDetails "description");
           ("per_task_instructions", opt_get projectDetails "per_task_instructions") ]);
      ("outline_geojson", js_or dividedTaskGeojson drawnGeojson);
      ("odk_central_url", opt_get projectDetails "odk_central_url");
      ("odk_central_user", opt_get projectDetails "odk_central_user");
      ("odk_central_password", opt_get projectDetails "odk_central_password");
      ("xform_category", opt_get projectDetails "formCategorySelection");
      ("task_split_type", splitTasksSelection);
      ("form_ways", opt_get projectDetails "formWays");
      ("hashtags", hashtags);
      ("data_extract_url", opt_get projectDetails "data_extract_url") ] in
  if strict_eq splitTasksSelection (VNum (task_splitting_algorithm task_split_type))
  then <["task_num_buildings" := opt_get projectDetails "average_buildings_per_task"]>
         projectData
  else <["task_split_dimension" := opt_get projectDetails "dimension"]> projectData.

(** [submission], over the values the render selected from the store and
    the component's props and form values.  The two files built from blobs
    are represented by the JSON value they hold. *)
Definition submission (projectDetails splitTasksSelection dividedTaskGeojson
    drawnGeojson formValues customFormFile customDataExtractUpload : value)
  : M event unit :=
  tell (Dispatch (CreateProject (SetIsUnsavedChanges (VBool false))));;
  tell (Dispatch (CreateProject (SetIndividualProjectDetailsData formValues)));;
  hashtags ← lift (get projectDetails "hashtags");
  hashtags ← lift (arrayHashtag hashtags);
  org ← lift (get projectDetails "organisation_id");
  ways ← lift (get projectDetails "dataExtractWays");
  tell (Dispatch (Service "CreateProjectService"
    [ VStr (VITE_API_URL +:+ "/projects/create_project?org_id=" +:+ to_string org);
      VObj (projectData projectDetails splitTasksSelection
              dividedTaskGeojson drawnGeojson hashtags);
      js_or dividedTaskGeojson drawnGeojson;
      customFormFile;
      customDataExtractUpload;
      VBool (strict_eq ways (VStr "osm_data_extract")) ]));;
  tell (Dispatch (CreateProject
    (SetIndividualProjectDetailsData (VObj (spread projectDetails formValues)))));;
  tell (Dispatch (CreateProject (SetCanSwitchCreateProjectSteps (VBool true)))).

(** *** The log effects *)

(** First request for the log, once the creation service has reported
    a QR-generation task. *)
Definition effect_qr_success (generateQrSuccess projectDetailsResponse : value)
  : C unit :=
  when (truthy generateQrSuccess)
    (h ← get_handle;
     when (bool_decide (h = None))
       (dispatch (GenerateProjectLog (opt_get projectDetailsResponse "id")
                    (opt_get generateQrSuccess "task_id"));;
        log (SetToggleStatus true))).

Definition status_is (generateProjectLog : value) (s : string) : bool :=
  strict_eq (opt_get generateProjectLog "status") (VStr s).

(** The effect on [generateQrSuccess, generateProjectLog]. *)
Definition effect_log (generateQrSuccess generateProjectLog projectDetailsResponse : value)
  : C unit :=
  (if truthy generateQrSuccess && status_is generateProjectLog "FAILED" then
     h ← get_handle;
     clearInterval h;;
     dispatch (Common (SetSnackBar true
       ("QR Generation Failed. " +:+ to_string (opt_get generateProjectLog "message"))
       "error" 10000))
   else if truthy generateQrSuccess && status_is generateProjectLog "SUCCESS" then
     h ← get_handle;
     clearInterval h;;
     dispatch (Common (SetSnackBar true "QR Generation Completed." "success" 2000));;
     dispatch (CreateProject (SetGenerateProjectLog VNull));;
     dispatch (CreateProject (SetGenerateProjectQRSuccess VNull));;
     log (Navigate ("/project_details/" +:+ encode (opt_get projectDetailsResponse "id")));;
     dispatch (CreateProject ClearCreateProjectFormData);;
     dispatch (CreateProject (SetCanSwitchCreateProjectSteps (VBool false)))
   else mret tt);;
  when (truthy generateQrSuccess && status_is generateProjectLog "PENDING")
    (h ← get_handle;
     when (bool_decide (h = None))
       (id ← setInterval
               [Dispatch (GenerateProjectLog (opt_get projectDetailsResponse "id")
                            (opt_get generateQrSuccess "task_id"))]
               5000;
        set_handle (Some id))).

(** The cleanup returned by the mount effect. *)
Definition cleanup_unmount : C unit :=
  h ← get_handle;
  clearInterval h;;
  set_handle None;;
  dispatch (CreateProject (SetGenerateProjectLog VNull)).

End SplitTasks.

(** The page just loaded: initial store, no interval. *)
Definition loaded : world := World CreateProjectSlice.initialState None ∅ 1.

(** What can happen to the page while the view is in use.  The two
    selected values and the response are whatever the store holds at that
    render (other thunks and views dispatch to the same store); an interval
    firing only dispatches a thunk. *)
Inductive step (e : task_split_type_enum) (url : string) (enc : value → string)
  : world → world → Prop :=
  | step_dispatch a w :
      step e url enc w (run (dispatch a) w)
  | step_effect_qr qr resp w :
      step e url enc w (run (effect_qr_success url qr resp) w)
  | step_effect_log qr lg resp w :
      step e url enc w (run (effect_log url enc qr lg resp) w)
  | step_effect_selection selection w :
      step e url enc w (run (effect_selection e selection) w)
  | step_select v w :
      step e url enc w (run (select_option e v) w)
  | step_tick id w :
      step e url enc w (run (tick id) w)
  | step_unmount w :
      step e url enc w (run cleanup_unmount w).

Inductive reachable (e : task_split_type_enum) (url : string) (enc : value → string)
  : world → Prop :=
  | reach_loaded : reachable e url enc loaded
  | reach_step w w' :
      reachable e url enc w → step e url enc w w' → reachable e url enc w'.

(** Number of [clearInterval] calls in a trace. *)
Definition is_clear (ev : event) : bool :=
  match ev with ClearInterval _ => true | _ => false end.
Definition clears (t : list event) : nat := List.length (List.filter is_clear t).

(** The [setInterval] calls of a trace, as (id, period). *)
Definition intervals_set (t : list event) : list (nat * Z) :=
  omap (λ ev, match ev with SetInterval id ms => Some (id, ms) | _ => None end) t.

End SplitTasks.

(** ** api/Project.js *)
Module ProjectApi.
Import JS Redux ProjectActions.

Section ProjectApi.

(** [import.meta.env.VITE_API_URL] *)
Variable VITE_API_URL : string.
(** The backend as [axios.get] sees it: the response object for a URL, or
    a rejected request. *)
Variable server : string → result value.
(** [task_priority_str] of [types/enums], a lookup table. *)
Variable task_priority_str : value → value.
(** [window.URL.createObjectURL], which rejects what is not a blob. *)
Variable createObjectURL : value → result value.

Definition dispatch (a : ProjectActions.t) : M event unit := tell (Dispatch (Project a)).

(** [await CoreModules.axios.get(url)] *)
Definition axios_get (url : string) : M event value :=
  tell (AxiosGet url);; lift (server url).

(** [a = document.createElement('a'); a.href = createObjectURL(data);
    a.download = name; a.click()] *)
Definition save_as (data name : value) : M event unit :=
  href ← lift (createObjectURL data);
  tell (AnchorClick href name).

(** [arr.map(f)] *)
Definition js_map (arr : value) (f : value → result value) : result value :=
  match arr with
  | VArr l => match map_result f l with
              | Ok l' => Ok (VArr l')
              | Throw e => Throw e
              end
  | _ => Throw (TypeError "map is not a function")
  end.

(** [arr.find((task) => task.id === id)] *)
Fixpoint find_by_id (l : list value) (id : value) : result value :=
  match l with
  | [] => Ok VUndefined
  | task :: r =>
      match get task "id" with
      | Throw e => Throw e
      | Ok tid => if strict_eq tid id then Ok task else find_by_id r id
      end
  end.

Definition js_find_by_id (arr id : value) : result value :=
  match arr with
  | VArr l => find_by_id l id
  | _ => Throw (TypeError "find is not a function")
  end.

Definition rbind {A B} (r : result A) (f : A → result B) : result B :=
  match r with Ok a => f a | Throw e => Throw e end.

(** One element of [persistingValues]. *)
Definition persisting (data : value) : result value :=
  rbind (get data "id") (λ id,
  Ok (CreateProjectSlice.obj
    [ ("id", id);
      ("outline_geojson", opt_get data "outline_geojson");
      ("outline_centroid", opt_get data "outline_centroid");
      ("task_status", task_priority_str (opt_get data "task_status"));
      ("locked_by_uid", opt_get data "locked_by_uid");
      ("locked_by_username", opt_get data "locked_by_username");
      ("task_history", opt_get data "task_history");
      ("odk_token", opt_get data "odk_token") ])).

(** One element of [mergedBboxIntoTask]. *)
Definition merge_bbox (taskBbox projectTask : value) : result value :=
  rbind (get taskBbox "data") (λ bboxes,
  rbind (js_find_by_id bboxes (opt_get projectTask "id")) (λ found,
  rbind (get found "point") (λ point,
  rbind (get_index point 0) (λ centroid,
  Ok (VObj (<["bbox" := centroid]> (spread projectTask VUndefined))))))).

Definition projectInfo (projectResp : value) : value :=
  CreateProjectSlice.obj
  [ ("id", opt_get projectResp "id");
    ("outline_geojson", opt_get projectResp "outline_geojson");
    ("priority", js_or (opt_get projectResp "priority") (VNum 2));
    ("priority_str", js_or (opt_get projectResp "priority_str") (VStr "MEDIUM"));
    ("title", opt_get (opt_get projectResp "project_info") "name");
    ("location_str", opt_get projectResp "location_str");
    ("description", opt_get (opt_get projectResp "project_info") "description");
    ("short_description",
       opt_get (opt_get projectResp "project_info") "short_description");
    ("num_contributors", opt_get projectResp "num_contributors");
    ("total_tasks", opt_get projectResp "total_tasks");
    ("tasks_mapped", opt_get projectResp "tasks_mapped");
    ("tasks_validated", opt_get projectResp "tasks_validated");
    ("xform_title", opt_get projectResp "xform_title");
    ("tasks_bad", opt_get projectResp "tasks_bad");
    ("data_extract_url", opt_get projectResp "data_extract_url") ].

Definition ProjectById (existingProjectList projectId : value) : M event unit :=
  let fetchProjectById : M event unit :=
    try_catch
      (dispatch (SetProjectDetialsLoading true);;
       project ← axios_get (VITE_API_URL +:+ "/projects/" +:+ to_string projectId);
       taskList ← axios_get
         (VITE_API_URL +:+ "/tasks/task-list?project_id=" +:+ to_string projectId);
       taskBbox ← axios_get
         (VITE_API_URL +:+ "/tasks/point_on_surface?project_id=" +:+ to_string projectId);
       projectResp ← lift (get project "data");
       taskListResp ← lift (get taskList "data");
       persistingValues ← lift (js_map taskListResp persisting);
       id ← lift (get projectResp "id");
       mergedBboxIntoTask ← lift (js_map persistingValues (merge_bbox taskBbox));
       dispatch (SetProjectTaskBoundries
         (VArr [CreateProjectSlice.obj
                  [("id", id); ("taskBoundries", mergedBboxIntoTask)]]));;
       dispatch (SetProjectInfo (projectInfo projectResp));;
       dispatch (SetProjectDetialsLoading false))
      (λ error, mret tt) in
  fetchProjectById;;
  dispatch SetNewProjectTrigger.

Definition DownloadProjectForm (url : string) (payload projectId : value)
  : M event unit :=
  dispatch (SetDownloadProjectFormLoading payload true);;
  try_catch_finally
    (response ← (if strict_eq payload (VStr "form")
                 then axios_get url else axios_get url);
     data ← lift (get response "data");
     save_as data
       (VStr (if strict_eq payload (VStr "form")
              then "project_form_" +:+ to_string projectId +:+ ".xls"
              else "task_polygons_" +:+ to_string projectId +:+ ".geojson"));;
     dispatch (SetDownloadProjectFormLoading payload false))
    (λ error, dispatch (SetDownloadProjectFormLoading payload false))
    (dispatch (SetDownloadProjectFormLoading payload false)).

Definition DownloadDataExtract (url : string) (payload : value) : M event unit :=
  dispatch (SetDownloadDataExtractLoading true);;
  try_catch_finally
    (response ← axios_get url;
     data ← lift (get response "data");
     save_as data (VStr "Data_Extract.geojson");;
     dispatch (SetDownloadDataExtractLoading false))
    (λ error, dispatch (SetDownloadDataExtractLoading false))
    (dispatch (SetDownloadDataExtractLoading false)).

Definition GetTilesList (url : string) : M event unit :=
  dispatch (SetTilesListLoading true);;
  try_catch_finally
    (response ← axios_get url;
     data ← lift (get response "data");
     dispatch (SetTilesList data);;
     dispatch (SetTilesListLoading false))
    (λ error, dispatch (SetTilesListLoading false))
    (dispatch (SetTilesListLoading false)).

(** [dispatch(thunk)]: the nested thunk runs on its own; its effects are
    kept apart from the caller's, and what it throws stays inside its
    promise. *)
Definition dispatch_thunk (thunk : M event unit) : M event unit :=
  tell (Spawn (trace thunk)).

Definition GenerateProjectTiles (url : string) (payload : value) : M event unit :=
  dispatch (SetGenerateProjectTilesLoading true);;
  try_catch_finally
    (response ← axios_get url;
     dispatch_thunk
       (GetTilesList (VITE_API_URL +:+ "/projects/tiles_list/" +:+ to_string payload +:+ "/"));;
     dispatch (SetGenerateProjectTilesLoading false))
    (λ error, dispatch (SetGenerateProjectTilesLoading false))
    (dispatch (SetGenerateProjectTilesLoading false)).

(** [response.headers['content-disposition'].split('filename=')[1]] *)
Definition filename_of (response : value) : result value :=
  rbind (get response "headers") (λ headers,
  rbind (get headers "content-disposition") (λ disposition,
  match disposition with
  | VStr s => Ok (match split "filename=" s !! 1%nat with
                  | Some name => VStr name
                  | None => VUndefined
                  end)
  | _ => Throw (TypeError "split is not a function")
  end)).

Definition DownloadTile (url : string) (payload : value) : M event unit :=
  dispatch (SetDownloadTileLoading payload true);;
  try_catch_finally
    (response ← axios_get url;
     filename ← lift (filename_of response);
     data ← lift (get response "data");
     save_as data filename;;
     dispatch (SetDownloadTileLoading payload false))
    (λ error, dispatch (SetDownloadTileLoading payload false))
    (dispatch (SetDownloadTileLoading payload false)).

Definition GetProjectDashboard (url : string) : M event unit :=
  try_catch_finally
    (dispatch (SetProjectDashboardLoading true);;
     response ← axios_get url;
     data ← lift (get response "data");
     dispatch (SetProjectDashboardDetail data);;
     dispatch (SetProjectDashboardLoading false))
    (λ error, dispatch (SetProjectDashboardLoading false))
    (dispatch (SetProjectDashboardLoading false)).

End ProjectApi.

(** The values a trace gives, in order, to the loading flag selected by
    [flag]. *)
Definition flag_writes (flag : ProjectActions.t → option bool) (t : list event)
  : list bool :=
  omap (λ ev, match ev with
              | Dispatch (Project a) => flag a
              | _ => None
              end) t.

Definition projectDetailsLoading (a : ProjectActions.t) : option bool :=
  match a with SetProjectDetialsLoading b => Some b | _ => None end.
Definition downloadProjectFormLoading (a : ProjectActions.t) : option bool :=
  match a with SetDownloadProjectFormLoading _ b => Some b | _ => None end.
Definition downloadDataExtractLoading (a : ProjectActions.t) : option bool :=
  match a with SetDownloadDataExtractLoading b => Some b | _ => None end.
Definition tilesListLoading (a : ProjectActions.t) : option bool :=
  match a with SetTilesListLoading b => Some b | _ => None end.
Definition generateProjectTilesLoading (a : ProjectActions.t) : option bool :=
  match a with SetGenerateProjectTilesLoading b => Some b | _ => None end.
Definition downloadTileLoading (a : ProjectActions.t) : option bool :=
  match a with SetDownloadTileLoading _ b => Some b | _ => None end.
Definition projectDashboardLoading (a : ProjectActions.t) : option bool :=
  match a with SetProjectDashboardLoading b => Some b | _ => None end.

(** The actions a trace dispatches that are not writes to a loading
    flag: the data (or error state) the handler puts in the store. *)
Definition is_loading_flag (a : ProjectActions.t) : bool :=
  match a with
  | SetProjectDetialsLoading _ | SetDownloadProjectFormLoading _ _
  | SetDownloadDataExtractLoading _ | SetTilesListLoading _
  | SetGenerateProjectTilesLoading _ | SetDownloadTileLoading _ _
  | SetProjectDashboardLoading _ => true
  | _ => false
  end.

Definition state_writes (t : list event) : list action :=
  omap (λ ev, match ev with
              | Dispatch (Project a) => if is_loading_flag a then None else Some (Project a)
              | Dispatch a => Some a
              | _ => None
              end) t.

End ProjectApi.

(** ** components/ProjectSubmissions/SubmissionsTable.tsx *)
Module SubmissionsTable.
Import JS.




End SubmissionsTable.

(** ** The VectorLayer component of the map adapter (its text is the
       second half of components/ProjectSubmissions/TaskSubmissionsMap.tsx) *)
Module VectorLayer.

Inductive kind := Modify | Select | Draw.

#[export] Instance kind_eq_dec : EqDecision kind.
Proof. solve_decision. Defined.

(** An interaction object: its identity, the map it is meant for, what it
    does. *)
Record interaction := Interaction { iid : nat; on_map : nat; ikind : kind }.

(** The interactions registered with the maps of the page, and the next
    object identity. *)
Record page := Page { registry : list interaction; fresh : nat }.

Definition addInteraction (i : interaction) (reg : list interaction) :=
  reg ++ [i].
Definition removeInteraction (i : interaction) (reg : list interaction) :=
  filter (λ x, iid x ≠ iid i) reg.

(** The props and state the two interaction effects depend on; each is an
    object identity, [None] for [null]/[undefined].  [defaultProps] turns
    a missing [onModify] into [null]. *)
Record props := Props {
  map : option nat;
  onModify : option nat;
  onDraw : option nat;
}.

(** The effect "Modify Feature": what it registers is what its cleanup
    removes. *)
Definition modify_effect (map vectorLayer onModify : option nat) (pg : page)
  : page * list interaction :=
  match map, vectorLayer, onModify with
  | Some m, Some _, Some _ =>
      let select := Interaction (fresh pg) m Select in
      let modify := Interaction (S (fresh pg)) m Modify in
      (Page (addInteraction select (addInteraction modify (registry pg)))
            (S (S (fresh pg))),
       [modify; select])
  | _, _, _ => (pg, [])
  end.

(** The effect "Draw Feature"; it does not wait for the vector layer. *)
Definition draw_effect (map onDraw : option nat) (pg : page)
  : page * list interaction :=
  match map, onDraw with
  | Some m, Some _ =>
      let draw := Interaction (fresh pg) m Draw in
      (Page (addInteraction draw (registry pg)) (S (fresh pg)), [draw])
  | _, _ => (pg, [])
  end.

(** One [useEffect]: the dependencies of its last run and what its pending
    cleanup will remove. *)
Record slot := Slot {
  last : option (option nat * option nat * option nat);
  live : list interaction;
}.

Record instance := Instance { modify_slot : slot; draw_slot : slot }.

Definition unmounted : instance := Instance (Slot None []) (Slot None []).

Definition changed (s : slot) (d : option nat * option nat * option nat) : bool :=
  negb (bool_decide (last s = Some d)).

Definition cleanup (s : slot) (reg : list interaction) : list interaction :=
  foldl (λ r i, removeInteraction i r) reg (live s).

(** A render commits: first the cleanups of the effects whose dependencies
    changed, then those effects, in the order they are declared. *)
Definition render (p : props) (vectorLayer : option nat)
    (st : instance * page) : instance * page :=
  let '(inst, pg) := st in
  let dm := (map p, vectorLayer, onModify p) in
  let dd := (map p, vectorLayer, onDraw p) in
  let reg := registry pg in
  let reg := if changed (modify_slot inst) dm then cleanup (modify_slot inst) reg else reg in
  let reg := if changed (draw_slot inst) dd then cleanup (draw_slot inst) reg else reg in
  let pg := Page reg (fresh pg) in
  let '(pg, ms) :=
    if changed (modify_slot inst) dm
    then let '(pg', l) := modify_effect (map p) vectorLayer (onModify p) pg in
         (pg', Slot (Some dm) l)
    else (pg, modify_slot inst) in
  let '(pg, ds) :=
    if changed (draw_slot inst) dd
    then let '(pg', l) := draw_effect (map p) (onDraw p) pg in
         (pg', Slot (Some dd) l)
    else (pg, draw_slot inst) in
  (Instance ms ds, pg).

(** The instance is removed: every pending cleanup runs. *)
Definition unmount (st : instance * page) : instance * page :=
  let '(inst, pg) := st in
  (unmounted,
   Page (cleanup (draw_slot inst) (cleanup (modify_slot inst) (registry pg))) (fresh pg)).

(** The life of one instance on a page without other interactions: the
    renders so far, oldest first, each with the props and the
    [vectorLayer] state it saw. *)
Definition replay (history : list (props * option nat)) : instance * page :=
  foldl (λ st r, render r.1 r.2 st) (unmounted, Page [] 0) history.

Definition registered (k : kind) (reg : list interaction) : bool :=
  existsb (λ i, bool_decide (ikind i = k)) reg.

(** Draw and modify are not both registered. *)
Definition mutually_exclusive (reg : list interaction) : Prop :=
  ¬ (registered Draw reg = true ∧ registered Modify reg = true).

End VectorLayer.

(** ** More of the SplitTasks view (unnamed/part_000) *)
Module SplitTasksMore.
Import JS Redux Browser SplitTasks.

(** [checkTasksGeneration]: the value it gives [setTaskGenerationStatus];
    the SUBMIT button is disabled while that value is false. *)
Definition checkTasksGeneration (e : task_split_type_enum)
    (isTasksGenerated splitTasksSelection : value) : result bool :=
  match get isTasksGenerated "divide_on_square" with
  | Throw err => Throw err
  | Ok square =>
      if negb (truthy square)
         && strict_eq splitTasksSelection (VNum (divide_on_square e))
      then Ok false
      else if negb (truthy (opt_get isTasksGenerated "task_splitting_algorithm"))
              && strict_eq splitTasksSelection (VNum (task_splitting_algorithm e))
      then Ok false
      else Ok true
  end.

(** [arr.join(sep)] on strings. *)
Fixpoint join (sep : string) (l : list string) : string :=
  match l with
  | [] => ""
  | x :: r =>
      match r with
      | [] => x
      | _ :: _ => x +:+ sep +:+ join sep r
      end
  end.

Definition newline : string := String (ascii_of_nat 10) EmptyString.

(** [renderTraceback]: [None] is the [null] returned for an empty text;
    otherwise one row per line, each with the number shown before it. *)
Definition renderTraceback (errorText : value) : result (option (list (Z * string))) :=
  if negb (truthy errorText) then Ok None
  else match errorText with
       | VStr s => Ok (Some (imap (λ index line, (Z.of_nat index + 1, line)%Z)
                               (split newline s)))
       | _ => Throw (TypeError "errorText.split is not a function")
       end.



End SplitTasksMore.

(** ** More of the submissions table: filters and the table request *)
Module SubmissionsTableMore.
Import JS Redux.

Section Requests.

(** [import.meta.env.VITE_API_URL] and the decoded project id
    ([environment.decode] is outside the sources at hand). *)
Variable VITE_API_URL : string.
Variable decodedId : value.



End Requests.


End SubmissionsTableMore.

(** ** components/ProjectSubmissions/TaskSubmissionsMap.tsx: the legend *)
Module TaskSubmissionsMap.
Import JS.

(** The keys of [colorCodes], in the order [Object.keys] lists them; the
    [min] and [max] the table gives them are never read. *)
Definition colorCodesKeys : list string :=
  ["#A9D2F3"; "#7CB2E8"; "#4A90D9"; "#0062AC"].

(** [Math.max(first, ...rest)]: [None] is [NaN], which any operand that
    converts to [NaN] forces. *)
Fixpoint js_max (first : value) (rest : list value) : option Z :=
  match rest with
  | [] => to_number first
  | next :: rest' =>
      x ← to_number first; y ← js_max next rest'; Some (Z.max x y)
  end.

(** [Math.round(p / q)] of an exact quotient with [q] positive: halves go
    up. *)
Definition round_ratio (p : Z) (q : positive) : Z :=
  (2 * p + Z.pos q) / (2 * Z.pos q).

Definition color_code (min max : value) (color : string) : value :=
  CreateProjectSlice.obj [("min", min); ("max", max); ("color", VStr color)].

(** The [forEach] over the keys.  [currentValue] is carried as its exact
    numerator over [noOfRange] ([None] for [NaN]): it starts at
    [minValue = 1] and grows by [interval = (maxValue - 1) / noOfRange]
    with each key. *)
Fixpoint push_codes (maxValue : option Z) (noOfRange : positive)
    (currentValue : option Z) (keys : list string) : list value :=
  match keys with
  | [] => []
  | key :: keys' =>
      let nextValue :=
        c ← currentValue; m ← maxValue; Some (c + (m - 1))%Z in
      color_code (of_number ((λ c, round_ratio c noOfRange) <$> currentValue))
                 (of_number ((λ c, round_ratio c noOfRange) <$> nextValue))
                 key
      :: push_codes maxValue noOfRange nextValue keys'
  end.

(** [data?.length]. *)
Definition opt_get_length (data : value) : value :=
  match data with
  | VArr l => VNum (Z.of_nat (List.length l))
  | VStr s => VNum (Z.of_nat (String.length s))
  | _ => opt_get data "length"
  end.

(** [colorRange(data, noOfRange)], with [noOfRange] as the number the
    operators [<=] and [/] convert it to (the view passes the string
    ['4']).  Numbers are the integers of [VNum] and the arithmetic is
    exact: it is what the doubles of the source compute when [noOfRange]
    is a power of two and the counts are integers below 2^50.  A count
    that is a string is not converted (see [to_number]). *)
Definition colorRange (data : value) (noOfRange : positive) : result value :=
  if strict_eq (opt_get_length data) (VNum 0) then Ok (VArr [])
  else
    match data with
    | VArr ds =>
        match map_result (λ d, get d "count") ds with
        | Throw e => Throw e
        | Ok [] => Ok (VArr [])
        | Ok (count :: counts) =>
            let maxVal := js_max count counts in
            let maxValue :=
              (λ m, if (m <=? Z.pos noOfRange)%Z then 10 else m)%Z <$> maxVal in
            Ok (VArr (color_code (VNum 0) (VNum 0) "#FF4538"
                      :: push_codes maxValue noOfRange
                           (Some (Z.pos noOfRange)) colorCodesKeys))
        end
    | _ => Throw (TypeError "data?.map is not a function or its return value is not iterable")
    end.

(** [a <= b] on numbers ([b >= a] is the same test). *)
Definition js_le (a b : value) : bool :=
  match to_number a, to_number b with
  | Some x, Some y => (x <=? y)%Z
  | _, _ => false
  end.

(** [getChoroplethColor(value, colorCodesOutput)]: the colour of the last
    entry whose range holds [value], red when there is none. *)
Definition getChoroplethColor (v colorCodesOutput : value) : result value :=
  match colorCodesOutput with
  | VUndefined | VNull => Ok (VStr "#FF4538")
  | VArr codes =>
      foldl (λ toReturn code,
               match toReturn with
               | Throw e => Throw e
               | Ok colour =>
                   match get code "min" with
                   | Throw e => Throw e
                   | Ok min =>
                       if js_le min v && js_le v (opt_get code "max")
                       then Ok (opt_get code "color")
                       else Ok colour
                   end
               end)
            (Ok (VStr "#FF4538")) codes
  | _ => Throw (TypeError "colorCodesOutput?.map is not a function")
  end.

(** [legendColorArray] of the view. *)
Definition legendColorArray (federalWiseProjectCount : value) : result value :=
  colorRange federalWiseProjectCount 4.

End TaskSubmissionsMap.

(** ** views/Organisation.tsx: the tabs and what they request *)
Module Organisation.
Import JS Redux.

Section View.
(** [import.meta.env.VITE_API_URL], and whether the logged-in user's token
    carries the role [user_roles.ADMIN]. *)
Variable VITE_API_URL : string.
Variable admin : bool.

(** The [useState] cells the handlers write. *)
Record state := State {
  activeTab : Z;
  verifiedTab : bool;
  myOrgsLoaded : bool;
}.

Definition initial : state := State 0 true false.

(** The effect on [verifiedTab]. *)
Definition effect_verifiedTab (st : state) : list event :=
  if verifiedTab st
  then [Dispatch (Service "OrganisationDataService"
                    [VStr (VITE_API_URL +:+ "/organisation/")])]
  else [Dispatch (Service "OrganisationDataService"
                    [VStr (VITE_API_URL +:+ "/organisation/unapproved/")])].

Definition loadMyOrganisations (st : state) : state * list event :=
  let '(st, t) :=
    if negb (myOrgsLoaded st)
    then (State (activeTab st) (verifiedTab st) true,
          [Dispatch (Service "MyOrganisationDataService"
                       [VStr (VITE_API_URL +:+ "/organisation/my-organisations")])])
    else (st, []) in
  (State 1 (verifiedTab st) (myOrgsLoaded st), t).

(** The four tabs.  "To be Verified" and "Verified" are rendered only for
    an admin looking at the tab "All". *)
Inductive click := All | MyOrganizations | ToBeVerified | Verified.

#[export] Instance click_eq_dec : EqDecision click.
Proof. solve_decision. Defined.

Definition shown (st : state) (c : click) : bool :=
  match c with
  | All | MyOrganizations => true
  | ToBeVerified | Verified => admin && (activeTab st =? 0)%Z
  end.

Definition onClick (c : click) (st : state) : state * list event :=
  match c with
  | All => (State 0 (verifiedTab st) (myOrgsLoaded st), [])
  | MyOrganizations => loadMyOrganisations st
  | ToBeVerified => (State (activeTab st) false (myOrgsLoaded st), [])
  | Verified => (State (activeTab st) true (myOrgsLoaded st), [])
  end.

(** A click on a tab that is on the page, and the render it causes: the
    effect runs when [verifiedTab] is not what the previous render saw. *)
Definition after_click (st : state) (c : click) : state * list event :=
  if shown st c
  then let '(st', t) := onClick c st in
       (st', t ++ if bool_decide (verifiedTab st' = verifiedTab st) then []
                  else effect_verifiedTab st')
  else (st, []).

Fixpoint after_clicks (st : state) (clicks : list click) : state * list event :=
  match clicks with
  | [] => (st, [])
  | c :: clicks' =>
      let '(st', t) := after_click st c in
      let '(st'', t') := after_clicks st' clicks' in
      (st'', t ++ t')
  end.

(** The view from its first render on. *)
Definition visit (clicks : list click) : state * list event :=
  let '(st, t) := after_clicks initial clicks in
  (st, effect_verifiedTab initial ++ t).

End View.

Definition is_service (name : string) (e : event) : bool :=
  match e with
  | Dispatch (Service n _) => String.eqb n name
  | _ => false
  end.

Definition requests (name : string) (t : list event) : list event :=
  List.filter (is_service name) t.

End Organisation.


(* ===================================================================== *)
(** * Part II.  Properties                                                *)
(* ===================================================================== *)

(** ** Project details: validation and submission *)
Module ValidationProps.
Import JS Redux Validation.

Lemma lookup_set_error_eq k msg c (errors : gmap string string) :
  set_error k msg c errors !! k = if c then Some msg else errors !! k.
Proof. unfold set_error. destruct c; [apply lookup_insert_eq | done]. Qed.

Lemma lookup_set_error_ne k msg c (errors : gmap string string) k' :
  k ≠ k' → set_error k msg c errors !! k' = errors !! k'.
Proof. intros. unfold set_error. destruct c; [by apply lookup_insert_ne | done]. Qed.

(** Reads one field of the error object through the validator's writes. *)
Ltac read_errors :=
  repeat first [ rewrite lookup_set_error_ne by done
               | rewrite lookup_set_error_eq ].

(** A validator call is one of two shapes, according to what the regular
    expression answered. *)
Ltac open_validator :=
  unfold CreateProjectValidation;
  match goal with
  | |- context [if truthy ?n then regexForSymbol_test ?i ?s else ?d] =>
      destruct (if truthy n then regexForSymbol_test i s else d) as [has_symbol lastIndex'] eqn:Hre
  end; cbn [fst snd].

Lemma find_from_0_elem c s :
  find_from c 0 s = None → ∀ i, String.get i s ≠ Some c.
Proof.
  induction s as [|a s IH]; intros H i; [by destruct i|].
  simpl in H. destruct (Ascii.eqb a c) eqn:Hac; [done|].
  destruct (find_from c 0 s); [done|].
  destruct i as [|i]; simpl.
  - intros [= ->]. by rewrite Ascii.eqb_refl in Hac.
  - by apply IH.
Qed.

(** With a fresh regular expression ([lastIndex] 0) an underscore in the
    name is always reported. *)
Lemma underscore_reported_when_fresh isValidUrl values (s : string) i :
  opt_get values "name" = VStr s →
  String.get i s = Some "_"%char →
  (CreateProjectValidation isValidUrl values 0).1 !! "name"
  = Some "Project Name should not contain _ .".
Proof.
  intros Hname Hi. open_validator.
  read_errors. rewrite Hname in *. simpl in Hre.
  destruct s as [|a s]; [by destruct i|].
  unfold regexForSymbol_test, regex_test_g in Hre.
  destruct (find_from "_" 0 (String a s)) eqn:Hf.
  - injection Hre as <- <-. by simpl.
  - exfalso. by eapply find_from_0_elem.
Qed.

(** C3.  For every values object the validator reports the organisation
    when it is missing and, when the default ODK credentials are not in
    use, each of the ODK URL, user and password that is missing; and
    whenever the error object it returns is not empty, pressing NEXT runs
    no part of the submission callback: nothing is dispatched and there is
    no navigation. *)
Theorem project_details_validation_blocks
    (isValidUrl : value → bool) (flag values : value) (lastIndex : nat) :
  let errors := (CreateProjectValidation isValidUrl values lastIndex).1 in
  let submit := ProjectDetailsForm.onSubmit isValidUrl flag values lastIndex in
  (truthy (opt_get values "organisation_id") = false →
     errors !! "organisation_id" = Some "Organization is Required.") ∧
  (truthy (opt_get values "defaultODKCredentials") = false →
     (truthy (opt_get values "odk_central_url") = false →
        errors !! "odk_central_url" = Some "ODK URL is Required.") ∧
     (truthy (opt_get values "odk_central_user") = false →
        errors !! "odk_central_user" = Some "ODK Central User is Required.") ∧
     (truthy (opt_get values "odk_central_password") = false →
        errors !! "odk_central_password" = Some "ODK Central Password is Required.")) ∧
  submit.1.1 = errors ∧
  (errors ≠ ∅ → submit.2 = []).
Proof.
  cbn zeta. unfold ProjectDetailsForm.onSubmit, handleSubmit.
  destruct (CreateProjectValidation isValidUrl values lastIndex) as [errors li] eqn:Hv.
  cbn [fst snd].
  assert (errors = (CreateProjectValidation isValidUrl values lastIndex).1) as Herr
    by (by rewrite Hv).
  split_and!.
  - intros H. rewrite Herr. open_validator. read_errors. by rewrite H.
  - intros Hd. split_and!; intros H; rewrite Herr; open_validator;
      read_errors; rewrite ?Hd, ?H; simpl; try done.
  - done.
  - intros Hne. case_decide as Hdom; [|done].
    by apply dom_empty_iff_L in Hdom.
Qed.

(** The theorem at the form as it first appears: nothing filled in. *)
Lemma project_details_validation_blocks_witness :
  let submit := ProjectDetailsForm.onSubmit (λ _, true) VNull (VObj ∅) 0 in
  submit.1.1 !! "organisation_id" = Some "Organization is Required." ∧
  submit.1.1 !! "odk_central_url" = Some "ODK URL is Required." ∧
  submit.1.1 !! "odk_central_user" = Some "ODK Central User is Required." ∧
  submit.1.1 !! "odk_central_password" = Some "ODK Central Password is Required." ∧
  submit.2 = [].
Proof.
  cbn zeta.
  destruct (project_details_validation_blocks (λ _, true) VNull (VObj ∅) 0)
    as (Horg & Hodk & Heq & Hblock).
  destruct (Hodk eq_refl) as (Hurl & Huser & Hpw).
  rewrite Heq.
  split_and!.
  - exact (Horg eq_refl).
  - exact (Hurl eq_refl).
  - exact (Huser eq_refl).
  - exact (Hpw eq_refl).
  - apply Hblock. intros Hempty.
    pose proof (Horg eq_refl) as H. rewrite Hempty in H. by rewrite lookup_empty in H.
Defined.

(** A complete project form whose name contains an underscore. *)
Definition underscored : value :=
  CreateProjectSlice.obj
  [ ("organisation_id", VNum 1); ("name", VStr "a_b");
    ("short_description", VStr "short"); ("description", VStr "long");
    ("odk_central_url", VStr ""); ("odk_central_user", VStr "");
    ("odk_central_password", VStr ""); ("defaultODKCredentials", VBool true) ].

(** C10.  The validator is meant to reject every name with an underscore,
    but [regexForSymbol] carries the [g] flag and is shared by all calls:
    after it has matched the last underscore of a name, the next call
    starts searching behind that underscore, finds nothing, and returns no
    error for the name.  Here the same complete form, named "a_b", is
    validated twice in a row: the first call reports the underscore and
    leaves [lastIndex] at 2, the second call returns an empty error
    object. *)
Theorem underscore_missed_on_second_validation :
  let first := CreateProjectValidation (λ _, true) underscored 0 in
  let second := CreateProjectValidation (λ _, true) underscored first.2 in
  first.1 !! "name" = Some "Project Name should not contain _ ." ∧
  first.2 = 2 ∧
  second.1 !! "name" = None ∧
  second.1 = ∅.
Proof. cbn zeta. split_and!; by vm_compute. Qed.

End ValidationProps.

(** ** Split tasks: selection and submission *)
Module SplitTasksProps.
Import JS Redux Browser SplitTasks.
Import CreateProjectActions.

(** Unfolds the component monad down to worlds and traces. *)
Ltac unfold_C :=
  unfold run, events, select_option, rerender_selection, onChangeData,
    effect_selection, effect_qr_success, effect_log, cleanup_unmount, tick,
    when, dispatch, log, clearInterval, setInterval, get_handle, set_handle,
    mbind, mret, C_bind, C_ret, c_bind, c_ret in *.

(** Computes through the monad while keeping maps and the JavaScript
    comparisons folded. *)
Ltac jsimpl :=
  cbn -[insert lookup delete strict_eq same_value truthy status_is opt_get to_string
        String.append] in *.

Lemma strict_eq_num_refl n : strict_eq (VNum n) (VNum n) = true.
Proof. apply Z.eqb_refl. Qed.

Lemma same_value_num a n : same_value a (VNum n) = true ↔ a = VNum n.
Proof.
  destruct a; simpl; try (split; [done | by intros [=]]).
  rewrite Z.eqb_eq. split; [by intros -> | by intros [=]].
Qed.

Lemma run_bind {A B} (m : C A) (f : A → C B) w :
  run (m ≫= f) w = run (f (m w).1.1) (run m w).
Proof.
  unfold run, mbind, C_bind, c_bind.
  destruct (m w) as [[a w1] t1]. simpl. by destruct (f a w1) as [[b w2] t2].
Qed.

Lemma onChangeData_selection e v w :
  sel (store (run (onChangeData e v) w)) "splitTasksSelection" = parseInt v.
Proof.
  unfold_C. jsimpl.
  destruct (strict_eq (VNum (choose_area_as_task e)) (parseInt v)); jsimpl;
    unfold sel, CreateProjectSlice.field;
    (rewrite ?lookup_insert_ne by done); by rewrite lookup_insert_eq.
Qed.

Lemma effect_selection_clears e w :
  sel (store (run (effect_selection e (VNum (choose_area_as_task e))) w))
      "dividedTaskGeojson" = VNull.
Proof.
  unfold_C. rewrite strict_eq_num_refl. jsimpl.
  unfold sel, CreateProjectSlice.field. by rewrite lookup_insert_eq.
Qed.

(** C2.  Whatever the store holds, when the user changes the split type to
    "choose area as task" (the option whose value parses to that enum
    member, the selection being something else before), the render that
    follows leaves [dividedTaskGeojson] null. *)
Theorem choose_area_clears_split_geometry
    (e : task_split_type_enum) (w : world) (v : string) :
  parseInt v = VNum (choose_area_as_task e) →
  sel (store w) "splitTasksSelection" ≠ VNum (choose_area_as_task e) →
  sel (store (run (select_option e v) w)) "dividedTaskGeojson" = VNull.
Proof.
  intros Hv Hprev.
  change (run (select_option e v) w)
    with (run (onChangeData e v ≫= λ _, rerender_selection e
                 (sel (store w) "splitTasksSelection")) w).
  rewrite run_bind.
  set (w1 := run (onChangeData e v) w).
  assert (sel (store w1) "splitTasksSelection" = VNum (choose_area_as_task e)) as Hsel
    by (unfold w1; by rewrite onChangeData_selection).
  change (run (rerender_selection e (sel (store w) "splitTasksSelection")) w1)
    with (run (when (negb (same_value (sel (store w) "splitTasksSelection")
                             (sel (store w1) "splitTasksSelection")))
                 (effect_selection e (sel (store w1) "splitTasksSelection"))) w1).
  rewrite Hsel.
  destruct (same_value _ _) eqn:Hs.
  { by apply same_value_num in Hs. }
  apply effect_selection_clears.
Qed.

(** The theorem on a store that holds a generated split while "divide on
    square" is selected. *)
Definition split_done : world :=
  World (<["dividedTaskGeojson" := CreateProjectSlice.obj [("type", VStr "FeatureCollection")]]>
         (<["splitTasksSelection" := VNum 0]> CreateProjectSlice.initialState))
        None ∅ 1.

Lemma choose_area_clears_split_geometry_witness :
  sel (store split_done) "dividedTaskGeojson" ≠ VNull ∧
  sel (store (run (select_option (TaskSplitType 0 1 2) "1") split_done))
      "dividedTaskGeojson" = VNull.
Proof.
  split; [by vm_compute|].
  apply (choose_area_clears_split_geometry (TaskSplitType 0 1 2) split_done "1").
  - reflexivity.
  - by vm_compute.
Defined.

(** The object handed to the creation service, read off a trace. *)
Definition payload_of (t : list event) : option (gmap string value) :=
  head (omap (λ ev, match ev with
                    | Dispatch (Service "CreateProjectService" (_ :: VObj payload :: _)) =>
                        Some payload
                    | _ => None
                    end) t).

(** The metadata block of the payload. *)
Definition project_info_of (projectDetails : value) : value :=
  CreateProjectSlice.obj
  [ ("name", opt_get projectDetails "name");
    ("short_description", opt_get projectDetails "short_description");
    ("description", opt_get projectDetails "description");
    ("per_task_instructions", opt_get projectDetails "per_task_instructions") ].

Lemma submission_payload e url pd selection divided drawn formValues custom extract :
  outcome (submission e url pd selection divided drawn formValues custom extract) = Ok tt →
  ∃ hashtags,
    payload_of (trace (submission e url pd selection divided drawn formValues custom extract))
    = Some (projectData e pd selection divided drawn hashtags).
Proof.
  unfold submission, outcome, trace, tell, lift, mbind, M_bind, bind. simpl.
  destruct (get pd "hashtags") as [h|]; simpl; [|done].
  destruct (arrayHashtag h) as [h'|]; simpl; [|done].
  destruct (get pd "organisation_id") as [o|]; simpl; [|done].
  destruct (get pd "dataExtractWays") as [d|]; simpl; [|done].
  intros _. by exists h'.
Qed.

(** C7.  Whenever a submission reaches the creation service, the payload
    it sends contains the project metadata, has as [outline_geojson] the
    divided task geometry when there is one (an object) and the drawn
    geometry when it is null, and carries exactly one of the two split
    parameters: [task_num_buildings] when the selection is the task
    splitting algorithm, [task_split_dimension] for every other
    selection. *)
Theorem submission_payload_shape
    (e : task_split_type_enum) (url : string)
    (projectDetails selection divided drawn formValues custom extract : value)
    (payload : gmap string value) :
  payload_of (trace (submission e url projectDetails selection divided drawn
                       formValues custom extract)) = Some payload →
  (payload !! "project_info" = Some (project_info_of projectDetails) ∧
   payload !! "odk_central_url" = Some (opt_get projectDetails "odk_central_url") ∧
   payload !! "odk_central_user" = Some (opt_get projectDetails "odk_central_user") ∧
   payload !! "odk_central_password" = Some (opt_get projectDetails "odk_central_password") ∧
   payload !! "xform_category" = Some (opt_get projectDetails "formCategorySelection") ∧
   payload !! "form_ways" = Some (opt_get projectDetails "formWays") ∧
   payload !! "data_extract_url" = Some (opt_get projectDetails "data_extract_url") ∧
   payload !! "task_split_type" = Some selection ∧
   is_Some (payload !! "hashtags")) ∧
  ((∀ m, divided = VObj m → payload !! "outline_geojson" = Some divided) ∧
   (divided = VNull → payload !! "outline_geojson" = Some drawn)) ∧
  (if strict_eq selection (VNum (task_splitting_algorithm e))
   then payload !! "task_num_buildings"
          = Some (opt_get projectDetails "average_buildings_per_task")
        ∧ payload !! "task_split_dimension" = None
   else payload !! "task_split_dimension" = Some (opt_get projectDetails "dimension")
        ∧ payload !! "task_num_buildings" = None).
Proof.
  intros Hp.
  assert (∃ hashtags, payload = projectData e projectDetails selection divided drawn hashtags)
    as [hashtags ->].
  { revert Hp.
    unfold submission, payload_of, trace, tell, lift, mbind, M_bind, bind. simpl.
    destruct (get projectDetails "hashtags") as [h|]; simpl; [|done].
    destruct (arrayHashtag h) as [h'|]; simpl; [|done].
    destruct (get projectDetails "organisation_id") as [o|]; simpl; [|done].
    destruct (get projectDetails "dataExtractWays") as [d|]; simpl; [|done].
    intros [= <-]. by exists h'. }
  unfold projectData.
  destruct (strict_eq selection _);
    (split_and!;
     [ by rewrite lookup_insert_ne | by rewrite lookup_insert_ne
     | by rewrite lookup_insert_ne | by rewrite lookup_insert_ne
     | by rewrite lookup_insert_ne | by rewrite lookup_insert_ne
     | by rewrite lookup_insert_ne | by rewrite lookup_insert_ne
     | by rewrite lookup_insert_ne
     | by intros m ->; rewrite lookup_insert_ne
     | by intros ->; rewrite lookup_insert_ne
     | by rewrite lookup_insert_eq
     | by rewrite lookup_insert_ne ]).
Qed.

(** The theorem on a project that was split by the algorithm. *)
Definition algorithm_project : value :=
  CreateProjectSlice.obj
  [ ("name", VStr "survey"); ("hashtags", VStr "#fmtm #osm");
    ("organisation_id", VNum 1); ("dimension", VNum 10);
    ("average_buildings_per_task", VNum 5) ].

Lemma submission_payload_shape_witness :
  ∃ payload,
    payload_of (trace (submission (TaskSplitType 0 1 2) "https://api" algorithm_project
                         (VNum 2) (VObj ∅) VNull VUndefined VNull VNull)) = Some payload ∧
    payload !! "outline_geojson" = Some (VObj ∅) ∧
    payload !! "task_num_buildings" = Some (VNum 5) ∧
    payload !! "task_split_dimension" = None.
Proof.
  eexists. split; [reflexivity|].
  destruct (submission_payload_shape (TaskSplitType 0 1 2) "https://api" algorithm_project
              (VNum 2) (VObj ∅) VNull VUndefined VNull VNull _ eq_refl)
    as (_ & [Hdiv _] & Hsplit).
  simpl in Hsplit. destruct Hsplit as [Hn Hd].
  split_and!; [by apply (Hdiv ∅) | exact Hn | exact Hd].
Defined.

End SplitTasksProps.

(** ** Split tasks: polling the QR-generation log *)
Module PollingProps.
Import JS Redux Browser SplitTasks SplitTasksProps.
Import CreateProjectActions.

(** Every interval the page has running is the one the module-level
    handle names. *)
Definition owned (w : world) : Prop :=
  ∀ id, is_Some (timers w !! id) → generateProjectLogIntervalCb w = Some id.

Definition terminal (generateProjectLog : value) : Prop :=
  status_is generateProjectLog "SUCCESS" = true ∨
  status_is generateProjectLog "FAILED" = true.

Definition pending (generateProjectLog : value) : Prop :=
  status_is generateProjectLog "PENDING" = true.

Lemma status_exclusive lg s s' :
  s ≠ s' → status_is lg s = true → status_is lg s' = false.
Proof.
  unfold status_is. destruct (opt_get lg "status"); simpl; try done.
  intros Hne ->%String.eqb_eq. by apply String.eqb_neq.
Qed.

Lemma owned_loaded : owned loaded.
Proof. intros id [x Hx]. simpl in Hx. by rewrite lookup_empty in Hx. Qed.

(** Cancelling the handle of an owned page leaves nothing running. *)
Lemma owned_cancel (w : world) :
  owned w → cancel (generateProjectLogIntervalCb w) (timers w) = ∅.
Proof.
  intros Ho. apply map_eq. intros id. rewrite lookup_empty.
  destruct (cancel _ _ !! id) as [x|] eqn:Hx; [|done]. exfalso.
  unfold cancel in Hx. destruct (generateProjectLogIntervalCb w) as [h|] eqn:Hh.
  - destruct (decide (h = id)) as [->|Hne].
    + by rewrite lookup_delete_eq in Hx.
    + rewrite lookup_delete_ne in Hx by done.
      assert (Some h = Some id) as [=] by (rewrite <- Hh; apply Ho; eauto). done.
  - assert (@None nat = Some id) by (rewrite <- Hh; apply Ho; eauto). done.
Qed.

(** *** What each piece of the view does to the handle and the timers *)

Lemma dispatch_frame a w :
  timers (run (dispatch a) w) = timers w ∧
  generateProjectLogIntervalCb (run (dispatch a) w) = generateProjectLogIntervalCb w.
Proof. done. Qed.

Lemma effect_qr_success_frame url qr resp w :
  timers (run (effect_qr_success url qr resp) w) = timers w ∧
  generateProjectLogIntervalCb (run (effect_qr_success url qr resp) w)
  = generateProjectLogIntervalCb w.
Proof.
  unfold_C. destruct (truthy qr); [|done]. jsimpl.
  by destruct (bool_decide _).
Qed.

Lemma effect_selection_frame e selection w :
  timers (run (effect_selection e selection) w) = timers w ∧
  generateProjectLogIntervalCb (run (effect_selection e selection) w)
  = generateProjectLogIntervalCb w.
Proof. unfold_C. by destruct (strict_eq _ _). Qed.

Lemma select_option_frame e v w :
  timers (run (select_option e v) w) = timers w ∧
  generateProjectLogIntervalCb (run (select_option e v) w)
  = generateProjectLogIntervalCb w.
Proof.
  unfold_C. jsimpl.
  destruct (strict_eq (VNum (choose_area_as_task e)) (parseInt v)); jsimpl;
    destruct (negb _); jsimpl; try done;
    by destruct (strict_eq _ _).
Qed.

Lemma tick_frame id w : run (tick id) w = w.
Proof. done. Qed.

(** The log effect on a terminal status, in a QR-generation session. *)
Lemma effect_log_terminal url enc qr lg resp w :
  truthy qr = true → terminal lg →
  clears (events (effect_log url enc qr lg resp) w) = 1 ∧
  timers (run (effect_log url enc qr lg resp) w)
  = cancel (generateProjectLogIntervalCb w) (timers w) ∧
  generateProjectLogIntervalCb (run (effect_log url enc qr lg resp) w)
  = generateProjectLogIntervalCb w.
Proof.
  intros Hqr [Hs|Hf].
  - pose proof (status_exclusive lg "SUCCESS" "FAILED" ltac:(done) Hs) as Hf.
    pose proof (status_exclusive lg "SUCCESS" "PENDING" ltac:(done) Hs) as Hp.
    unfold_C. rewrite Hqr, Hs, Hf, Hp. done.
  - pose proof (status_exclusive lg "FAILED" "PENDING" ltac:(done) Hf) as Hp.
    unfold_C. rewrite Hqr, Hf, Hp. done.
Qed.

(** The log effect on a pending status, in a QR-generation session: it
    starts the interval when the handle is null and does nothing
    otherwise. *)
Lemma effect_log_pending url enc qr lg resp w :
  truthy qr = true → pending lg →
  effect_log url enc qr lg resp w =
  match generateProjectLogIntervalCb w with
  | None =>
      (tt,
       World (store w) (Some (next_timer w))
             (<[next_timer w :=
                  Interval 5000
                    [Dispatch (GenerateProjectLog url (opt_get resp "id")
                                 (opt_get qr "task_id"))]]> (timers w))
             (S (next_timer w)),
       [SetInterval (next_timer w) 5000])
  | Some _ => (tt, w, [])
  end.
Proof.
  intros Hqr Hp.
  pose proof (status_exclusive lg "PENDING" "FAILED" ltac:(done) Hp) as Hf.
  pose proof (status_exclusive lg "PENDING" "SUCCESS" ltac:(done) Hp) as Hs.
  unfold_C. rewrite Hqr, Hf, Hs, Hp. jsimpl.
  destruct w as [st [h|] tm nt]; done.
Qed.

(** Any other run of the log effect touches neither. *)
Lemma effect_log_owned url enc qr lg resp w :
  owned w → owned (run (effect_log url enc qr lg resp) w).
Proof.
  intros Ho.
  destruct (truthy qr) eqn:Hqr.
  - destruct (status_is lg "FAILED") eqn:Hf;
      [|destruct (status_is lg "SUCCESS") eqn:Hs;
        [|destruct (status_is lg "PENDING") eqn:Hp]].
    + destruct (effect_log_terminal url enc qr lg resp w Hqr (or_intror Hf))
        as (_ & Ht & Hh).
      intros id. rewrite Ht, owned_cancel by done. rewrite lookup_empty.
      by intros [? ?].
    + destruct (effect_log_terminal url enc qr lg resp w Hqr (or_introl Hs))
        as (_ & Ht & Hh).
      intros id. rewrite Ht, owned_cancel by done. rewrite lookup_empty.
      by intros [? ?].
    + unfold run. rewrite effect_log_pending by done.
      destruct (generateProjectLogIntervalCb w) as [h|] eqn:Hh; [done|].
      intros id. simpl.
      pose proof (owned_cancel w Ho) as Hc. rewrite Hh in Hc. simpl in Hc.
      rewrite Hc. destruct (decide (next_timer w = id)) as [->|Hne]; [done|].
      rewrite lookup_insert_ne, lookup_empty by done. by intros [? ?].
    + unfold_C. rewrite Hqr, Hf, Hs, Hp. done.
  - unfold_C. rewrite Hqr. done.
Qed.

Lemma cleanup_unmount_spec w :
  clears (events cleanup_unmount w) = 1 ∧
  timers (run cleanup_unmount w) = cancel (generateProjectLogIntervalCb w) (timers w) ∧
  generateProjectLogIntervalCb (run cleanup_unmount w) = None.
Proof. done. Qed.

Lemma step_owned e url enc w w' :
  owned w → step e url enc w w' → owned w'.
Proof.
  intros Ho Hstep. destruct Hstep.
  - intros id. destruct (dispatch_frame a w) as [-> ->]. apply Ho.
  - intros id. destruct (effect_qr_success_frame url qr resp w) as [-> ->]. apply Ho.
  - by apply effect_log_owned.
  - intros id. destruct (effect_selection_frame e selection w) as [-> ->]. apply Ho.
  - intros id. destruct (select_option_frame e v w) as [-> ->]. apply Ho.
  - by rewrite tick_frame.
  - intros id. destruct (cleanup_unmount_spec w) as (_ & -> & _).
    rewrite owned_cancel by done. rewrite lookup_empty. by intros [? ?].
Qed.

Lemma reachable_owned e url enc w : reachable e url enc w → owned w.
Proof.
  induction 1 as [|w w' _ IH Hstep]; [apply owned_loaded | by eapply step_owned].
Qed.

(** C1.  In every state the page can reach: when the log effect runs in a
    QR-generation session ([generateQrSuccess] set) on a log whose status
    is SUCCESS or FAILED, it calls [clearInterval] exactly once and no
    polling interval is left running; and when the view unmounts, its
    cleanup calls [clearInterval] exactly once and no polling interval is
    left running. *)
Theorem polling_stops_once
    (e : task_split_type_enum) (url : string) (enc : value → string) (w : world) :
  reachable e url enc w →
  (∀ generateQrSuccess generateProjectLog projectDetailsResponse,
     truthy generateQrSuccess = true →
     terminal generateProjectLog →
     let effect := effect_log url enc generateQrSuccess generateProjectLog
                     projectDetailsResponse in
     clears (events effect w) = 1 ∧ timers (run effect w) = ∅) ∧
  (clears (events cleanup_unmount w) = 1 ∧ timers (run cleanup_unmount w) = ∅).
Proof.
  intros Ho%reachable_owned. split.
  - intros qr lg resp Hqr Hterm. cbn zeta.
    destruct (effect_log_terminal url enc qr lg resp w Hqr Hterm) as (Hc & Ht & _).
    split; [done|]. by rewrite Ht, owned_cancel.
  - destruct (cleanup_unmount_spec w) as (Hc & Ht & _).
    split; [done|]. by rewrite Ht, owned_cancel.
Qed.

(** A session that is being polled: the creation service has reported the
    task, the first log said PENDING. *)
Definition session : value := CreateProjectSlice.obj [("task_id", VStr "7f3a")].
Definition log_with (status : string) : value :=
  CreateProjectSlice.obj [("status", VStr status); ("progress", VNum 3)].
Definition created : value := CreateProjectSlice.obj [("id", VNum 12)].
Definition enums : task_split_type_enum := TaskSplitType 0 1 2.

Definition polling : world :=
  run (effect_log "https://api" to_string session (log_with "PENDING") created) loaded.

Lemma polling_stops_once_witness :
  timers polling ≠ ∅ ∧
  (clears (events (effect_log "https://api" to_string session (log_with "FAILED") created)
             polling) = 1 ∧
   timers (run (effect_log "https://api" to_string session (log_with "FAILED") created)
             polling) = ∅) ∧
  (clears (events cleanup_unmount polling) = 1 ∧
   timers (run cleanup_unmount polling) = ∅).
Proof.
  destruct (polling_stops_once enums "https://api" to_string polling)
    as [Hlog Hunmount].
  { eapply reach_step; [apply reach_loaded | apply step_effect_log]. }
  split_and!.
  - by vm_compute.
  - apply (Hlog session (log_with "FAILED") created); [reflexivity | right; reflexivity].
  - apply (Hlog session (log_with "FAILED") created); [reflexivity | right; reflexivity].
  - apply Hunmount.
  - apply Hunmount.
Defined.

(** *** The polling schedule *)

(** A run of renders, oldest first; each gives the log effect the values
    it selected: [(generateQrSuccess, generateProjectLog,
    projectDetailsResponse)]. *)
Definition renders (url : string) (enc : value → string)
    (history : list (value * value * value)) : C unit :=
  foldr (λ r k, effect_log url enc r.1.1 r.1.2 r.2 ≫= λ _, k) (mret tt) history.

Definition pending_session (r : value * value * value) : Prop :=
  truthy r.1.1 = true ∧ pending r.1.2.

Lemma renders_cons url enc r history w :
  renders url enc (r :: history) w =
  let '(_, w1, t1) := effect_log url enc r.1.1 r.1.2 r.2 w in
  let '(b, w2, t2) := renders url enc history w1 in
  (b, w2, t1 ++ t2).
Proof. done. Qed.

(** Once the handle is set, pending logs change nothing. *)
Lemma renders_idle url enc history w h :
  generateProjectLogIntervalCb w = Some h →
  Forall pending_session history →
  renders url enc history w = (tt, w, []).
Proof.
  intros Hh Hall. induction Hall as [|r history [Hqr Hp] _ IH]; [done|].
  rewrite renders_cons, effect_log_pending, Hh by done. by rewrite IH.
Qed.

(** C6.  Start from a page with no interval (handle null).  Over any
    non-empty run of renders that all see a QR-generation session with a
    PENDING log, [setInterval] is called exactly once, with a delay of
    5000 ms, and [clearInterval] never; afterwards exactly that interval
    is running, each time it fires it dispatches the log request for the
    session and stays registered with the same 5000 ms period, and it
    keeps running until the log effect sees a terminal status, which
    cancels it. *)
Theorem polling_every_five_seconds
    (url : string) (enc : value → string) (w : world)
    (first : value * value * value) (history : list (value * value * value)) :
  generateProjectLogIntervalCb w = None →
  timers w = ∅ →
  Forall pending_session (first :: history) →
  let poll := Dispatch (GenerateProjectLog url (opt_get first.2 "id")
                          (opt_get first.1.1 "task_id")) in
  let id := next_timer w in
  let w' := run (renders url enc (first :: history)) w in
  intervals_set (events (renders url enc (first :: history)) w) = [(id, 5000%Z)] ∧
  clears (events (renders url enc (first :: history)) w) = 0 ∧
  timers w' = {[ id := Interval 5000 [poll] ]} ∧
  generateProjectLogIntervalCb w' = Some id ∧
  events (tick id) w' = [poll] ∧
  run (tick id) w' = w' ∧
  (∀ qr lg resp, truthy qr = true → terminal lg →
     timers (run (effect_log url enc qr lg resp) w') = ∅).
Proof.
  intros Hh Ht Hall. cbn zeta.
  apply Forall_cons in Hall as [[Hqr Hp] Hrest].
  set (poll := Dispatch (GenerateProjectLog url (opt_get first.2 "id")
                           (opt_get first.1.1 "task_id"))).
  set (w1 := World (store w) (Some (next_timer w))
               (<[next_timer w := Interval 5000 [poll]]> (timers w))
               (S (next_timer w))).
  assert (renders url enc (first :: history) w = (tt, w1, [SetInterval (next_timer w) 5000]))
    as Hr.
  { rewrite renders_cons, effect_log_pending, Hh by done.
    by rewrite (renders_idle _ _ _ _ (next_timer w)). }
  assert (timers w1 = {[ next_timer w := Interval 5000 [poll] ]}) as Ht1.
  { unfold w1. cbn [timers]. by rewrite Ht. }
  assert (run (renders url enc (first :: history)) w = w1) as ->
    by (unfold run; by rewrite Hr).
  assert (events (renders url enc (first :: history)) w = [SetInterval (next_timer w) 5000])
    as -> by (unfold events; by rewrite Hr).
  split_and!; try done.
  - unfold events, tick. cbn [fst snd]. by rewrite Ht1, lookup_singleton_eq.
  - intros qr lg resp Hqr' Hterm.
    destruct (effect_log_terminal url enc qr lg resp w1 Hqr' Hterm) as (_ & -> & _).
    rewrite Ht1. apply delete_singleton_eq.
Qed.

(** Three pending logs in a row on the page as loaded, then a failure. *)
Lemma polling_every_five_seconds_witness :
  let history := [ (session, log_with "PENDING", created);
                   (session, log_with "PENDING", created);
                   (session, log_with "PENDING", created) ] in
  let w' := run (renders "https://api" to_string history) loaded in
  intervals_set (events (renders "https://api" to_string history) loaded) = [(1, 5000%Z)] ∧
  clears (events (renders "https://api" to_string history) loaded) = 0 ∧
  (delay <$> timers w' !! 1) = Some 5000%Z ∧
  run (tick 1) w' = w' ∧
  timers (run (effect_log "https://api" to_string session (log_with "FAILED") created) w') = ∅.
Proof.
  cbn zeta.
  destruct (polling_every_five_seconds "https://api" to_string loaded
              (session, log_with "PENDING", created)
              [ (session, log_with "PENDING", created);
                (session, log_with "PENDING", created) ]
              eq_refl eq_refl)
    as (Hset & Hclear & Htimers & _ & _ & Htick & Hstop).
  { repeat constructor. }
  split_and!.
  - exact Hset.
  - exact Hclear.
  - rewrite Htimers. reflexivity.
  - exact Htick.
  - apply Hstop; [reflexivity | right; reflexivity].
Defined.

End PollingProps.

(** ** The project API thunks *)
Module ProjectApiProps.
Import JS Redux ProjectActions ProjectApi.

(** Traces compose along the monad. *)
Lemma trace_bind {E A B} (m : M E A) (f : A → M E B) :
  trace (m ≫= f) =
  trace m ++ match outcome m with Ok a => trace (f a) | Throw _ => [] end.
Proof.
  unfold trace, outcome, mbind, M_bind, bind. destruct m as [[a|e] t]; simpl.
  - by destruct (f a).
  - by rewrite app_nil_r.
Qed.

Lemma outcome_bind {E A B} (m : M E A) (f : A → M E B) :
  outcome (m ≫= f) =
  match outcome m with Ok a => outcome (f a) | Throw e => Throw e end.
Proof.
  unfold outcome, mbind, M_bind, bind. destruct m as [[a|e] t]; simpl; [|done].
  by destruct (f a).
Qed.

Lemma trace_try_catch_finally {E A} (body : M E A) handler (fin : M E unit) :
  trace (try_catch_finally body handler fin) =
  trace body
  ++ match outcome body with Ok _ => [] | Throw e => trace (handler e) end
  ++ trace fin.
Proof.
  unfold trace, outcome, try_catch_finally.
  destruct body as [[a|e] t]; simpl.
  - by destruct fin.
  - destruct (handler e), fin. done.
Qed.

Lemma flag_writes_app flag t1 t2 :
  flag_writes flag (t1 ++ t2) = flag_writes flag t1 ++ flag_writes flag t2.
Proof. apply omap_app. Qed.

(** A [try] block that only requests, saves and, as its last statement,
    lowers its flag: the flag is written once when the block completes
    and not at all when it throws. *)
Definition lowers_at_end (flag : ProjectActions.t → option bool) (body : M event unit)
  : Prop :=
  flag_writes flag (trace body)
  = match outcome body with Ok _ => [false] | Throw _ => [] end.

(** The shape shared by the handlers that lower the flag in [catch] and
    again in [finally]. *)
Lemma guarded_twice flag (body : M event unit) (lower : ProjectActions.t) :
  flag lower = Some false →
  lowers_at_end flag body →
  flag_writes flag
    (trace (try_catch_finally body (λ _, dispatch lower) (dispatch lower)))
  = [false; false].
Proof.
  intros Hl Hb. rewrite trace_try_catch_finally, !flag_writes_app, Hb.
  destruct (outcome body); simpl; by rewrite Hl.
Qed.

Lemma DownloadProjectForm_body server cou url payload projectId :
  lowers_at_end downloadProjectFormLoading
    (response ← (if strict_eq payload (VStr "form")
                 then axios_get server url else axios_get server url);
     data ← lift (get response "data");
     save_as cou data
       (VStr (if strict_eq payload (VStr "form")
              then "project_form_" +:+ to_string projectId +:+ ".xls"
              else "task_polygons_" +:+ to_string projectId +:+ ".geojson"));;
     dispatch (SetDownloadProjectFormLoading payload false)).
Proof.
  destruct (strict_eq payload (VStr "form"));
    unfold lowers_at_end, trace, outcome, axios_get, save_as,
      dispatch, tell, lift, mbind, M_bind, bind;
    cbn -[String.append to_string get];
    destruct (server url) as [response|]; cbn -[String.append to_string get]; try done;
    destruct (get response "data") as [data|]; cbn -[String.append to_string]; try done;
    destruct (cou data); cbn -[String.append to_string]; done.
Qed.

Lemma DownloadDataExtract_body server cou url :
  lowers_at_end downloadDataExtractLoading
    (response ← axios_get server url;
     data ← lift (get response "data");
     save_as cou data (VStr "Data_Extract.geojson");;
     dispatch (SetDownloadDataExtractLoading false)).
Proof.
  unfold lowers_at_end, trace, outcome, axios_get, save_as,
    dispatch, tell, lift, mbind, M_bind, bind.
  cbn -[get].
  destruct (server url) as [response|]; cbn -[get]; try done.
  destruct (get response "data") as [data|]; cbn; try done.
  destruct (cou data); cbn; done.
Qed.

Lemma DownloadTile_body server cou url payload :
  lowers_at_end downloadTileLoading
    (response ← axios_get server url;
     filename ← lift (filename_of response);
     data ← lift (get response "data");
     save_as cou data filename;;
     dispatch (SetDownloadTileLoading payload false)).
Proof.
  unfold lowers_at_end, trace, outcome, axios_get, save_as,
    dispatch, tell, lift, mbind, M_bind, bind.
  cbn -[get filename_of].
  destruct (server url) as [response|]; cbn -[get filename_of]; try done.
  destruct (filename_of response) as [filename|]; cbn -[get]; try done.
  destruct (get response "data") as [data|]; cbn; try done.
  destruct (cou data); cbn; done.
Qed.

(** C4 (as the code has it).  For every call of a download action, with
    any answer of the server, the loading flag is set to true once at the
    start and after that only to false: once as the last statement of the
    [try] block or in the [catch] block, and once more in the [finally]
    block. *)
Theorem download_flag_sequence
    (server : string → result value) (createObjectURL : value → result value)
    (url : string) (payload projectId : value) :
  flag_writes downloadProjectFormLoading
    (trace (DownloadProjectForm server createObjectURL url payload projectId))
  = [true; false; false] ∧
  flag_writes downloadDataExtractLoading
    (trace (DownloadDataExtract server createObjectURL url payload))
  = [true; false; false] ∧
  flag_writes downloadTileLoading
    (trace (DownloadTile server createObjectURL url payload))
  = [true; false; false].
Proof.
  split_and!.
  - unfold DownloadProjectForm. rewrite trace_bind, flag_writes_app. simpl outcome.
    cbv iota. rewrite guarded_twice; [done..|]. apply DownloadProjectForm_body.
  - unfold DownloadDataExtract. rewrite trace_bind, flag_writes_app. simpl outcome.
    cbv iota. rewrite guarded_twice; [done..|]. apply DownloadDataExtract_body.
  - unfold DownloadTile. rewrite trace_bind, flag_writes_app. simpl outcome.
    cbv iota. rewrite guarded_twice; [done..|]. apply DownloadTile_body.
Qed.

(** A server that rejects every request, one that answers with a blob,
    and a page on which object URLs can be made. *)
Definition rejecting (url : string) : result value := Throw (RequestError "503").
Definition serving (url : string) : result value :=
  Ok (CreateProjectSlice.obj
        [ ("data", VStr "blob");
          ("headers", CreateProjectSlice.obj
             [("content-disposition", VStr "attachment; filename=tiles.mbtiles")]) ]).
Definition object_url (blob : value) : result value := Ok (VStr "blob:1").

(** The flag is not lowered exactly once: neither when the request
    fails nor when it succeeds. *)
Lemma download_flag_lowered_twice :
  flag_writes downloadDataExtractLoading
    (trace (DownloadDataExtract rejecting object_url "/extract" VNull)) ≠ [true; false] ∧
  flag_writes downloadDataExtractLoading
    (trace (DownloadDataExtract serving object_url "/extract" VNull)) ≠ [true; false].
Proof. split; by vm_compute. Qed.

(** The handlers written like the downloads lower their flag when the
    request is rejected, and put nothing else in the store. *)
Lemma siblings_reset_on_rejection api server cou url payload projectId e :
  server url = Throw e →
  let lowered (flag : ProjectActions.t → option bool) (thunk : M event unit) :=
    flag_writes flag (trace thunk) = [true; false; false]
    ∧ state_writes (trace thunk) = [] in
  lowered downloadProjectFormLoading (DownloadProjectForm server cou url payload projectId) ∧
  lowered downloadDataExtractLoading (DownloadDataExtract server cou url payload) ∧
  lowered downloadTileLoading (DownloadTile server cou url payload) ∧
  lowered tilesListLoading (GetTilesList server url) ∧
  lowered generateProjectTilesLoading (GenerateProjectTiles api server url payload) ∧
  lowered projectDashboardLoading (GetProjectDashboard server url).
Proof.
  intros Hs. cbn zeta.
  unfold DownloadProjectForm, DownloadDataExtract, DownloadTile, GetTilesList,
    GenerateProjectTiles, GetProjectDashboard, try_catch_finally, trace, axios_get,
    dispatch, tell, lift, mbind, M_bind, bind.
  destruct (strict_eq payload (VStr "form")); rewrite Hs; done.
Qed.

(** C8.  [ProjectById] does not follow its siblings: its [catch] block is
    empty and the only statement that lowers [projectDetailsLoading] is
    the last one of the [try] block.  When the first request is rejected
    the handler swallows the error, dispatches [SetNewProjectTrigger], and
    leaves the loading flag raised. *)
Theorem ProjectById_leaves_loading_raised
    (api : string) (server : string → result value)
    (task_priority_str : value → value) (existingProjectList projectId : value)
    (e : exn) :
  server (api +:+ "/projects/" +:+ to_string projectId) = Throw e →
  let thunk := ProjectById api server task_priority_str existingProjectList projectId in
  outcome thunk = Ok tt ∧
  trace thunk =
    [ Dispatch (Project (SetProjectDetialsLoading true));
      AxiosGet (api +:+ "/projects/" +:+ to_string projectId);
      Dispatch (Project SetNewProjectTrigger) ] ∧
  flag_writes projectDetailsLoading (trace thunk) = [true].
Proof.
  intros Hs. cbn zeta.
  unfold ProjectById, try_catch, try_catch_finally, trace, outcome, axios_get,
    dispatch, tell, lift, mbind, M_bind, bind.
  rewrite Hs. done.
Qed.

Lemma ProjectById_leaves_loading_raised_witness :
  flag_writes projectDetailsLoading
    (trace (ProjectById "https://api" rejecting id VNull (VNum 12))) = [true].
Proof.
  apply (ProjectById_leaves_loading_raised "https://api" rejecting id VNull (VNum 12)
           (RequestError "503")).
  reflexivity.
Defined.

End ProjectApiProps.

(** ** The submissions table: jumping to a page *)
Module SubmissionsTableProps.
Import JS SubmissionsTable.





End SubmissionsTableProps.

(** ** The map adapter: draw and modify interactions *)
Module VectorLayerProps.
Import VectorLayer.

(** What the dependencies of an effect's last run make it register. *)
Definition wants_modify (d : option (option nat * option nat * option nat)) : bool :=
  match d with
  | Some (Some _, Some _, Some _) => true
  | _ => false
  end.

Definition wants_draw (d : option (option nat * option nat * option nat)) : bool :=
  match d with
  | Some (Some _, _, Some _) => true
  | _ => false
  end.

Lemma registered_true k reg :
  registered k reg = true ↔ ∃ x, x ∈ reg ∧ ikind x = k.
Proof.
  unfold registered. rewrite existsb_exists. split.
  - intros (x & Hx & Hk). exists x. rewrite list_elem_of_In.
    by apply bool_decide_eq_true in Hk.
  - intros (x & Hx & Hk). exists x. rewrite <- list_elem_of_In.
    by rewrite bool_decide_eq_true.
Qed.

Lemma registered_false k reg :
  registered k reg = false ↔ ∀ x, x ∈ reg → ikind x ≠ k.
Proof.
  rewrite <- not_true_iff_false, registered_true. split.
  - intros H x Hx Hk. apply H. eauto.
  - intros H (x & Hx & Hk). by eapply H.
Qed.

Lemma elem_of_cleanup s reg x :
  x ∈ cleanup s reg ↔ x ∈ reg ∧ ∀ i, i ∈ live s → iid x ≠ iid i.
Proof.
  unfold cleanup. generalize (live s) as l. intros l. revert reg.
  induction l as [|i l IH]; intros reg; simpl.
  - split; [|by intros [? _]]. intros H. split; [done|]. intros i Hi. by apply elem_of_nil in Hi.
  - rewrite IH. unfold removeInteraction. rewrite list_elem_of_filter. split.
    + intros [[Hne Hx] Hl]. split; [done|]. intros j [->|Hj]%elem_of_cons; auto.
    + intros [Hx Hl]. split; [split; [|done]|].
      * apply Hl. apply elem_of_cons. by left.
      * intros j Hj. apply Hl. apply elem_of_cons. by right.
Qed.

(** The state of an instance and its page fit together: the registry
    holds exactly what the two pending cleanups will remove, under
    identities the page has already handed out; the modify effect holds no
    draw interaction and the draw effect only draw interactions; and each
    effect holds its interaction exactly when the dependencies of its last
    run asked for it. *)
Definition consistent (st : instance * page) : Prop :=
  let ms := modify_slot st.1 in
  let ds := draw_slot st.1 in
  (∀ x, x ∈ registry st.2 → iid x < fresh st.2) ∧
  (∀ x, x ∈ registry st.2 ↔ x ∈ live ms ∨ x ∈ live ds) ∧
  (∀ x, x ∈ live ms → ikind x ≠ Draw) ∧
  (∀ x, x ∈ live ds → ikind x = Draw) ∧
  (∀ x y, x ∈ live ms → y ∈ live ds → iid x ≠ iid y) ∧
  registered Modify (live ms) = wants_modify (last ms) ∧
  registered Draw (live ds) = wants_draw (last ds).

Lemma consistent_start : consistent (unmounted, Page [] 0).
Proof.
  unfold consistent. simpl. split_and!; try done; try (intros ? H; by apply elem_of_nil in H).
  - intros x. rewrite !elem_of_nil. tauto.
  - intros x y H. by apply elem_of_nil in H.
Qed.

(** What the two effects register when they run on a page whose next
    identity is [fr]. *)
Definition new_modify (d : option nat * option nat * option nat) (fr : nat)
  : list interaction :=
  if wants_modify (Some d)
  then [Interaction (S fr) (default 0 d.1.1) Modify;
        Interaction fr (default 0 d.1.1) Select]
  else [].

Definition new_draw (d : option nat * option nat * option nat) (fr : nat)
  : list interaction :=
  if wants_draw (Some d) then [Interaction fr (default 0 d.1.1) Draw] else [].

(** A render, effect by effect. *)
Lemma render_unfold p vl inst pg :
  let dm := (map p, vl, onModify p) in
  let dd := (map p, vl, onDraw p) in
  let cm := changed (modify_slot inst) dm in
  let cd := changed (draw_slot inst) dd in
  let kept :=
    (if cd then cleanup (draw_slot inst) else id)
      ((if cm then cleanup (modify_slot inst) else id) (registry pg)) in
  let nm := if cm then new_modify dm (fresh pg) else [] in
  let fr := List.length nm + fresh pg in
  let nd := if cd then new_draw dd fr else [] in
  render p vl (inst, pg) =
  (Instance (if cm then Slot (Some dm) nm else modify_slot inst)
            (if cd then Slot (Some dd) nd else draw_slot inst),
   Page (kept ++ nm ++ nd) (List.length nd + fr)).
Proof.
  cbn zeta. unfold render, new_modify, new_draw, modify_effect, draw_effect, addInteraction.
  destruct (changed (modify_slot inst) _), (changed (draw_slot inst) _);
    destruct p as [[m|] [om|] [od|]], vl as [v|]; cbn;
    rewrite ?app_nil_r, <- ?app_assoc; try done; by destruct pg.
Qed.

Lemma changed_false s d : changed s d = false → last s = Some d.
Proof. unfold changed. intros H%negb_false_iff. by apply bool_decide_eq_true in H. Qed.

Lemma elem_of_new_modify d fr x :
  x ∈ new_modify d fr →
  ikind x ≠ Draw ∧ fr ≤ iid x < List.length (new_modify d fr) + fr.
Proof.
  unfold new_modify. destruct (wants_modify _).
  - rewrite !elem_of_cons, elem_of_nil. intros [->|[->|[]]]; simpl; split; (done || lia).
  - by rewrite elem_of_nil.
Qed.

Lemma elem_of_new_draw d fr x :
  x ∈ new_draw d fr →
  ikind x = Draw ∧ iid x = fr ∧ List.length (new_draw d fr) = 1.
Proof.
  unfold new_draw. destruct (wants_draw _).
  - rewrite elem_of_cons, elem_of_nil. by intros [->|[]].
  - by rewrite elem_of_nil.
Qed.

Lemma registered_new_modify d fr :
  registered Modify (new_modify d fr) = wants_modify (Some d).
Proof. unfold new_modify. by destruct (wants_modify _). Qed.

Lemma registered_new_draw d fr :
  registered Draw (new_draw d fr) = wants_draw (Some d).
Proof. unfold new_draw. by destruct (wants_draw _). Qed.

Lemma render_consistent p vl st :
  consistent st →
  consistent (render p vl st) ∧
  last (modify_slot (render p vl st).1) = Some (map p, vl, onModify p) ∧
  last (draw_slot (render p vl st).1) = Some (map p, vl, onDraw p).
Proof.
  destruct st as [inst pg].
  intros (Hfresh & Hreg & Hm & Hd & Hids & Hwm & Hwd). cbn [fst snd] in *.
  rewrite render_unfold. cbn zeta.
  remember (map p, vl, onModify p) as dm eqn:Hdm.
  remember (map p, vl, onDraw p) as dd eqn:Hdd.
  pose proof (elem_of_new_modify dm (fresh pg)) as Hnm.
  pose proof (registered_new_modify dm (fresh pg)) as Hrm.
  destruct (changed (modify_slot inst) dm) eqn:Hcm;
    destruct (changed (draw_slot inst) dd) eqn:Hcd.
  all: try (apply changed_false in Hcm).
  all: try (apply changed_false in Hcd).
  all: cbn [fst snd modify_slot draw_slot last live registry fresh List.length id
            app Nat.add].
  all: unfold consistent; cbn [fst snd modify_slot draw_slot last live registry fresh].
  all: rewrite ?app_nil_r.
  all: (split; [|by rewrite ?Hcm, ?Hcd]).
  - pose proof (elem_of_new_draw dd (List.length (new_modify dm (fresh pg)) + fresh pg)) as Hnd.
    split_and!.
    + intros x. rewrite !elem_of_app, !elem_of_cleanup.
      intros [[[Hx _] _]|[Hx|Hx]].
      * apply Hfresh in Hx. lia.
      * apply Hnm in Hx. lia.
      * apply Hnd in Hx. lia.
    + intros x. rewrite !elem_of_app, !elem_of_cleanup. split; [|tauto].
      intros [[[Hx Hnotm] Hnotd]|H]; [|tauto]. exfalso.
      apply Hreg in Hx as [Hx|Hx]; [by eapply Hnotm | by eapply Hnotd].
    + intros x Hx. by apply Hnm in Hx as [? _].
    + intros x Hx. by apply Hnd in Hx as [? _].
    + intros x y Hx%Hnm Hy%Hnd. lia.
    + apply Hrm.
    + apply registered_new_draw.
  - split_and!.
    + intros x. rewrite !elem_of_app, !elem_of_cleanup.
      intros [[Hx _]|Hx].
      * apply Hfresh in Hx. lia.
      * apply Hnm in Hx. lia.
    + intros x. rewrite !elem_of_app, !elem_of_cleanup. split.
      * intros [[Hx Hnotm]|H]; [|tauto].
        apply Hreg in Hx as [Hx|Hx]; [exfalso; by eapply Hnotm | tauto].
      * intros [Hx|Hx]; [tauto|]. left. split; [apply Hreg; tauto|].
        intros i Hi. intros Heq. by eapply (Hids i x).
    + intros x Hx. by apply Hnm in Hx as [? _].
    + done.
    + intros x y Hx%Hnm Hy. assert (iid y < fresh pg) by (apply Hfresh, Hreg; tauto). lia.
    + apply Hrm.
    + by rewrite Hwd, Hcd.
  - pose proof (elem_of_new_draw dd (fresh pg)) as Hnd.
    split_and!.
    + intros x. rewrite !elem_of_app, !elem_of_cleanup.
      intros [[Hx _]|Hx].
      * apply Hfresh in Hx. lia.
      * apply Hnd in Hx. simpl. lia.
    + intros x. rewrite !elem_of_app, !elem_of_cleanup. split.
      * intros [[Hx Hnotd]|H]; [|tauto].
        apply Hreg in Hx as [Hx|Hx]; [tauto | exfalso; by eapply Hnotd].
      * intros [Hx|Hx]; [|tauto]. left. split; [apply Hreg; tauto|].
        intros i Hi. by eapply Hids.
    + done.
    + intros x Hx. by apply Hnd in Hx as [? _].
    + intros x y Hx Hy%Hnd. assert (iid x < fresh pg) by (apply Hfresh, Hreg; tauto). lia.
    + by rewrite Hwm, Hcm.
    + apply registered_new_draw.
  - split_and!; try done; by rewrite ?Hwm, ?Hcm, ?Hwd, ?Hcd.
Qed.

Lemma replay_consistent history :
  consistent (replay history) ∧
  ∀ earlier p vl, history = earlier ++ [(p, vl)] →
    last (modify_slot (replay history).1) = Some (map p, vl, onModify p) ∧
    last (draw_slot (replay history).1) = Some (map p, vl, onDraw p).
Proof.
  induction history as [|[p vl] history [IH _]] using rev_ind.
  - split; [apply consistent_start|]. intros [|??] ?? H; simplify_eq.
  - unfold replay in *. rewrite foldl_app. cbn [foldl fst snd].
    destruct (render_consistent p vl _ IH) as (Hc & Hm & Hd).
    split; [done|]. intros earlier p' vl' [_ [= <- <-]]%app_inj_tail. done.
Qed.

(** After any run of renders the map holds a modify interaction exactly
    when the latest render had a map, a vector layer and [onModify], and a
    draw interaction exactly when it had a map and [onDraw]. *)
Lemma registered_after_render earlier p vl :
  let reg := registry (replay (earlier ++ [(p, vl)])).2 in
  registered Modify reg = wants_modify (Some (map p, vl, onModify p)) ∧
  registered Draw reg = wants_draw (Some (map p, vl, onDraw p)).
Proof.
  cbn zeta.
  destruct (replay_consistent (earlier ++ [(p, vl)]))
    as ((_ & Hreg & Hm & Hd & _ & Hwm & Hwd) & Hlast).
  destruct (Hlast earlier p vl eq_refl) as [Hlm Hld].
  rewrite Hlm in Hwm. rewrite Hld in Hwd. split.
  - rewrite <- Hwm. apply eq_true_iff_eq. rewrite !registered_true. split.
    + intros (x & Hx & Hk). exists x. split; [|done].
      apply Hreg in Hx as [Hx|Hx]; [done|]. apply Hd in Hx. congruence.
    + intros (x & Hx & Hk). exists x. split; [|done]. apply Hreg. tauto.
  - rewrite <- Hwd. apply eq_true_iff_eq. rewrite !registered_true. split.
    + intros (x & Hx & Hk). exists x. split; [|done].
      apply Hreg in Hx as [Hx|Hx]; [|done]. by apply Hm in Hx.
    + intros (x & Hx & Hk). exists x. split; [|done]. apply Hreg. tauto.
Qed.

(** C9 (as the code has it).  The two effects are independent: nothing
    makes one interaction give way to the other.  For every run of renders
    whose latest props do not supply both [onDraw] and [onModify], at most
    one of the draw and modify interactions is registered with the map. *)
Theorem draw_modify_exclusive_unless_both
    (earlier : list (props * option nat)) (p : props) (vectorLayer : option nat) :
  ¬ (is_Some (onDraw p) ∧ is_Some (onModify p)) →
  mutually_exclusive (registry (replay (earlier ++ [(p, vectorLayer)])).2).
Proof.
  intros Hnot [Hdraw Hmodify].
  destruct (registered_after_render earlier p vectorLayer) as [Hm Hd].
  cbn zeta in Hm, Hd. rewrite Hm in Hmodify. rewrite Hd in Hdraw.
  apply Hnot. destruct p as [m om od]; simpl in *.
  destruct m, vectorLayer, om, od; simpl in *; try done; eauto.
Qed.

(** A layer mounted for drawing only, then for modifying only. *)
Lemma draw_modify_exclusive_unless_both_witness :
  mutually_exclusive
    (registry (replay ([(Props (Some 0) None (Some 7), None);
                        (Props (Some 0) None (Some 7), Some 3)]
                       ++ [(Props (Some 0) (Some 8) None, Some 3)])).2).
Proof.
  apply (draw_modify_exclusive_unless_both
           [(Props (Some 0) None (Some 7), None); (Props (Some 0) None (Some 7), Some 3)]
           (Props (Some 0) (Some 8) None) (Some 3)).
  simpl. intros [[? [=]] _].
Defined.

(** A layer given both callbacks: once its vector layer exists, the draw
    and the modify interaction are registered together. *)
Lemma draw_and_modify_together :
  ¬ mutually_exclusive
      (registry (replay [(Props (Some 0) (Some 8) (Some 7), None);
                         (Props (Some 0) (Some 8) (Some 7), Some 3)]).2).
Proof. intros H. apply H. by vm_compute. Qed.

End VectorLayerProps.

(* ===================================================================== *)
(** * Part III.  More of the code, and what it guarantees                 *)
(* ===================================================================== *)

Set Warnings "-clear-no-such-hyp".

(** ** The validator as a whole *)
Module ValidatorProps.
Import JS Validation ValidationProps.

Lemma set_error_empty k msg c (errors : gmap string string) :
  set_error k msg c errors = ∅ ↔ c = false ∧ errors = ∅.
Proof.
  unfold set_error. destruct c.
  - split; [|by intros [? _]]. intros H. by apply insert_non_empty in H.
  - split; [by intros -> | by intros [_ ->]].
Qed.

Lemma lookup_set_error_Some k msg c (errors : gmap string string) k' v :
  set_error k msg c errors !! k' = Some v → k' = k ∨ errors !! k' = Some v.
Proof.
  unfold set_error. destruct c; [|by right].
  destruct (decide (k = k')) as [->|Hne]; [by left|].
  rewrite lookup_insert_ne by done. by right.
Qed.

(** X1.  The validator returns no error exactly for a complete form: an
    organisation, either the default ODK credentials or a valid URL with
    user and password, a name without underscore, and both descriptions.
    (Called with a fresh regular expression.) *)
Theorem validator_accepts_exactly (isValidUrl : value → bool) (values : value) :
  (CreateProjectValidation isValidUrl values 0).1 = ∅ ↔
  truthy (opt_get values "organisation_id") = true ∧
  (truthy (opt_get values "defaultODKCredentials") = true ∨
   (truthy (opt_get values "odk_central_url") = true ∧
    isValidUrl (opt_get values "odk_central_url") = true ∧
    truthy (opt_get values "odk_central_user") = true ∧
    truthy (opt_get values "odk_central_password") = true)) ∧
  truthy (opt_get values "name") = true ∧
  find_from "_" 0 (to_string (opt_get values "name")) = None ∧
  truthy (opt_get values "short_description") = true ∧
  truthy (opt_get values "description") = true.
Proof.
  open_validator. rewrite !set_error_empty.
  assert (has_symbol = true ↔
          truthy (opt_get values "name") = true ∧
          find_from "_" 0 (to_string (opt_get values "name")) ≠ None) as Hsym.
  { destruct (truthy (opt_get values "name")).
    - unfold regexForSymbol_test, regex_test_g in Hre.
      destruct (find_from _ _ _); injection Hre as <- _; naive_solver.
    - injection Hre as <- _. naive_solver. }
  destruct (truthy (opt_get values "organisation_id")),
    (truthy (opt_get values "defaultODKCredentials")),
    (truthy (opt_get values "odk_central_url")),
    (isValidUrl (opt_get values "odk_central_url")),
    (truthy (opt_get values "odk_central_user")),
    (truthy (opt_get values "odk_central_password")),
    (truthy (opt_get values "name")),
    (truthy (opt_get values "short_description")),
    (truthy (opt_get values "description")),
    has_symbol,
    (find_from "_" 0 (to_string (opt_get values "name")));
    simpl; naive_solver.
Qed.

(** X2.  The error object only ever has the seven keys the validator writes
    (never [hashtags], [username] or [id]), and while the default ODK
    credentials are in use it has none of the three ODK keys, whatever
    those fields hold. *)
Theorem validator_error_keys
    (isValidUrl : value → bool) (values : value) (lastIndex : nat) :
  let errors := (CreateProjectValidation isValidUrl values lastIndex).1 in
  dom errors ⊆ {[ "organisation_id"; "odk_central_url"; "odk_central_user";
                  "odk_central_password"; "name"; "short_description";
                  "description" ]} ∧
  (truthy (opt_get values "defaultODKCredentials") = true →
   errors !! "odk_central_url" = None ∧
   errors !! "odk_central_user" = None ∧
   errors !! "odk_central_password" = None).
Proof.
  cbn zeta. split.
  - open_validator. intros k [v Hv]%elem_of_dom.
    repeat (apply lookup_set_error_Some in Hv as [->|Hv]; [set_solver|]).
    by rewrite lookup_empty in Hv.
  - intros Hd. split_and!; open_validator; read_errors; by rewrite Hd.
Qed.

Lemma validator_error_keys_witness :
  let errors := (CreateProjectValidation (λ _, false) underscored 0).1 in
  errors !! "odk_central_url" = None ∧
  errors !! "odk_central_user" = None ∧
  errors !! "odk_central_password" = None.
Proof.
  cbn zeta.
  destruct (validator_error_keys (λ _, false) underscored 0) as [_ H].
  exact (H eq_refl).
Defined.

(** X3.  The shared regular expression resets itself when it misses: of any two
    validations in a row of the same values whose name contains an
    underscore, at least one reports the underscore. *)
Theorem underscore_reported_every_other_call
    (isValidUrl : value → bool) (values : value) (s : string) (i lastIndex : nat) :
  opt_get values "name" = VStr s →
  String.get i s = Some "_"%char →
  let first := CreateProjectValidation isValidUrl values lastIndex in
  let second := CreateProjectValidation isValidUrl values first.2 in
  first.1 !! "name" = Some "Project Name should not contain _ ." ∨
  second.1 !! "name" = Some "Project Name should not contain _ .".
Proof.
  intros Hname Hi. cbn zeta.
  assert (truthy (VStr s) = true) as Ht by (by destruct s; [destruct i|]).
  destruct (find_from "_" lastIndex s) as [j|] eqn:Hf.
  - left. open_validator. read_errors. rewrite Hname, Ht in Hre. simpl in Hre.
    unfold regexForSymbol_test, regex_test_g in Hre. rewrite Hf in Hre.
    by injection Hre as <- _.
  - right.
    assert ((CreateProjectValidation isValidUrl values lastIndex).2 = 0) as ->.
    { open_validator. rewrite Hname, Ht in Hre. simpl in Hre.
      unfold regexForSymbol_test, regex_test_g in Hre. rewrite Hf in Hre.
      by injection Hre as _ <-. }
    by eapply underscore_reported_when_fresh.
Qed.

Lemma underscore_reported_every_other_call_witness :
  let first := CreateProjectValidation (λ _, true) underscored 2 in
  let second := CreateProjectValidation (λ _, true) underscored first.2 in
  first.1 !! "name" = Some "Project Name should not contain _ ." ∨
  second.1 !! "name" = Some "Project Name should not contain _ .".
Proof.
  apply (underscore_reported_every_other_call (λ _, true) underscored "a_b" 1 2);
    reflexivity.
Defined.

End ValidatorProps.

Module SplitTasksMoreProps.
Import JS Redux Browser SplitTasks SplitTasksProps PollingProps SplitTasksMore.
Import CreateProjectActions.

(** *** Strings: splitting and joining *)

Lemma append_cons x (a b : string) : String x a +:+ b = String x (a +:+ b).
Proof. done. Qed.

Lemma append_nil_l (b : string) : "" +:+ b = b.
Proof. done. Qed.

Lemma append_assoc (a b c : string) : (a +:+ b) +:+ c = a +:+ (b +:+ c).
Proof.
  induction a as [|x a IH]; [done|]. by rewrite !append_cons, IH.
Qed.

Lemma append_nil_r (a : string) : a +:+ "" = a.
Proof. induction a as [|x a IH]; [done|]. by rewrite append_cons, IH. Qed.

Lemma rev_string_onto_spec s acc :
  rev_string_onto s acc = rev_string s +:+ acc.
Proof.
  unfold rev_string. revert acc. induction s as [|a s IH]; intros acc; simpl; [done|].
  rewrite (IH (String a acc)), (IH (String a "")). by rewrite append_assoc.
Qed.

Lemma rev_string_cons a s : rev_string (String a s) = rev_string s +:+ String a "".
Proof. unfold rev_string. simpl. apply rev_string_onto_spec. Qed.



Lemma prefix_drop sep s :
  String.prefix sep s = true → s = sep +:+ drop_string (String.length sep) s.
Proof.
  revert s. induction sep as [|a sep IH]; intros s.
  { intros _. simpl. by rewrite append_nil_l. }
  destruct s as [|b s]; simpl; [done|].
  destruct (ascii_dec a b) as [->|]; [|done]. intros H.
  by rewrite append_cons, <- IH.
Qed.

Lemma length_drop_string n s :
  (String.length (drop_string n s) ≤ String.length s - n)%nat.
Proof.
  revert s. induction n as [|n IH]; intros s; simpl; [lia|].
  destruct s as [|a s]; simpl; [lia | apply IH].
Qed.

Lemma split_go_cons fuel sep s cur :
  ∃ x r, split_go fuel sep s cur = x :: r.
Proof.
  revert s cur. induction fuel as [|fuel IH]; intros s cur; simpl; [by eexists _, _|].
  destruct s as [|a s]; [by eexists _, _|].
  destruct (String.prefix sep (String a s)); [by eexists _, _ | apply IH].
Qed.

Lemma join_split_go fuel sep s cur :
  sep ≠ "" → (String.length s < fuel)%nat →
  join sep (split_go fuel sep s cur) = rev_string cur +:+ s.
Proof.
  intros Hsep. revert s cur.
  induction fuel as [|fuel IH]; intros s cur Hlen; [lia|].
  simpl. destruct s as [|a s].
  - simpl. by rewrite append_nil_r.
  - destruct (String.prefix sep (String a s)) eqn:Hp.
    + pose proof (prefix_drop _ _ Hp) as Hs.
      pose proof (length_drop_string (String.length sep) (String a s)) as Hd.
      destruct (split_go_cons fuel sep (drop_string (String.length sep) (String a s)) "")
        as (x & r & Hx).
      cbn [join]. rewrite Hx, <- Hx.
      rewrite IH.
      * change (rev_string "") with "". by rewrite append_nil_l, <- Hs.
      * destruct sep as [|b sep]; [done|]. simpl in *. lia.
    + rewrite IH by (simpl in Hlen; lia).
      by rewrite rev_string_cons, append_assoc.
Qed.

Lemma join_chars s : join "" (chars s) = s.
Proof.
  induction s as [|a s IH]; [done|].
  simpl. destruct (chars s) eqn:Hc.
  - by destruct s.
  - by rewrite append_nil_l, IH.
Qed.

(** Splitting a string and joining the pieces with the same separator
    gives the string back. *)
Lemma join_split sep s : join sep (split sep s) = s.
Proof.
  unfold split. destruct sep as [|a sep]; [apply join_chars|].
  rewrite join_split_go by (done || lia). done.
Qed.

(** *** The traceback *)

(** X4.  A non-empty log text is shown line by line: the rows are numbered
    1, 2, 3, ... in order, and their lines joined by newlines are the
    text itself; an empty or missing text shows nothing. *)
Theorem traceback_rows (errorText : string) :
  errorText ≠ "" →
  ∃ rows,
    renderTraceback (VStr errorText) = Ok (Some rows) ∧
    rows.*1 = (λ i, Z.of_nat i + 1)%Z <$> seq 0 (List.length rows) ∧
    join newline rows.*2 = errorText.
Proof.
  intros Hne. unfold renderTraceback.
  destruct errorText as [|a s]; [done|]. cbn [truthy negb].
  eexists. split; [reflexivity|].
  generalize (split newline (String a s)) (join_split newline (String a s)).
  intros l Hl. split.
  - rewrite length_imap. clear Hl.
    assert (∀ (k : nat) (l : list string),
      (imap (λ index line, (Z.of_nat (k + index) + 1, line)%Z) l).*1
      = (λ i, Z.of_nat i + 1)%Z <$> seq k (List.length l)) as Hgen.
    { clear. intros k l. revert k. induction l as [|x l IH]; intros k; [done|].
      cbn [imap fmap list_fmap seq List.length fst]. f_equal.
      - by rewrite Nat.add_0_r.
      - rewrite <- IH. f_equal. apply imap_ext. intros i y _. simpl.
        by rewrite Nat.add_succ_r. }
    apply (Hgen 0%nat l).
  - rewrite <- Hl. f_equal. clear.
    revert l. assert (∀ (k : nat) (l : list string),
      (imap (λ index line, (Z.of_nat (k + index) + 1, line)%Z) l).*2 = l) as Hgen.
    { intros k l. revert k. induction l as [|x l IH]; intros k; [done|].
      cbn [imap fmap list_fmap snd]. f_equal. rewrite <- (IH (S k)) at 2.
      f_equal. apply imap_ext. intros i y _. simpl. by rewrite Nat.add_succ_r. }
    apply (Hgen 0%nat).
Qed.

Lemma traceback_rows_witness :
  ∃ rows,
    renderTraceback (VStr ("Traceback" +:+ newline +:+ "KeyError")) = Ok (Some rows) ∧
    rows.*1 = [1%Z; 2%Z] ∧
    join newline rows.*2 = "Traceback" +:+ newline +:+ "KeyError".
Proof.
  destruct (traceback_rows ("Traceback" +:+ newline +:+ "KeyError")) as (rows & Hr & Hn & Hj);
    [done|].
  exists rows. split; [exact Hr|]. split; [|exact Hj].
  rewrite Hn. vm_compute in Hr. injection Hr as <-. reflexivity.
Defined.

(** *** The SUBMIT button *)

Lemma strict_eq_num_ne a b : a ≠ b → strict_eq (VNum a) (VNum b) = false.
Proof. intros. by apply Z.eqb_neq. Qed.

Lemma run_when b (m : C unit) w : run (when b m) w = if b then run m w else w.
Proof. by destruct b. Qed.

Lemma store_dispatch a w :
  store (run (dispatch a) w) = CreateProjectSlice.root a (store w).
Proof. done. Qed.

Lemma run_log ev w : run (log ev) w = w.
Proof. done. Qed.

(** The effect on the selection writes at most [dividedTaskGeojson]. *)
Lemma effect_selection_store e selection w :
  store (run (effect_selection e selection) w) = store w ∨
  store (run (effect_selection e selection) w)
  = <["dividedTaskGeojson" := VNull]> (store w).
Proof.
  unfold effect_selection. rewrite run_when. destruct (strict_eq _ _); [right|left]; done.
Qed.

Lemma select_option_store e v w :
  let st := store (run (onChangeData e v) w) in
  store (run (select_option e v) w) = st ∨
  store (run (select_option e v) w) = <["dividedTaskGeojson" := VNull]> st.
Proof.
  cbn zeta.
  change (run (select_option e v) w)
    with (run (onChangeData e v ≫= λ _, rerender_selection e
                 (sel (store w) "splitTasksSelection")) w).
  rewrite run_bind.
  set (w1 := run (onChangeData e v) w).
  change (run (rerender_selection e (sel (store w) "splitTasksSelection")) w1)
    with (run (when (negb (same_value (sel (store w) "splitTasksSelection")
                             (sel (store w1) "splitTasksSelection")))
                 (effect_selection e (sel (store w1) "splitTasksSelection"))) w1).
  rewrite run_when. destruct (negb _); [apply effect_selection_store | by left].
Qed.

Lemma onChangeData_store e v w :
  store (run (onChangeData e v) w) =
  let st := <["splitTasksSelection" := parseInt v]> (store w) in
  if strict_eq (VNum (choose_area_as_task e)) (parseInt v)
  then CreateProjectSlice.reducer (SetIsTasksGenerated "task_splitting_algorithm" (VBool false))
         (CreateProjectSlice.reducer (SetIsTasksGenerated "divide_on_square" (VBool false)) st)
  else st.
Proof.
  unfold onChangeData. rewrite !run_bind, run_when.
  destruct (strict_eq _ _); [rewrite !run_bind|]; by rewrite !store_dispatch.
Qed.

Lemma select_choose_area_store e v w :
  parseInt v = VNum (choose_area_as_task e) →
  let st := store (run (select_option e v) w) in
  sel st "splitTasksSelection" = VNum (choose_area_as_task e) ∧
  opt_get (sel st "isTasksGenerated") "divide_on_square" = VBool false ∧
  opt_get (sel st "isTasksGenerated") "task_splitting_algorithm" = VBool false.
Proof.
  intros Hv. cbn zeta.
  assert (∀ st, st = store (run (onChangeData e v) w) ∨
                st = <["dividedTaskGeojson" := VNull]> (store (run (onChangeData e v) w)) →
    sel st "splitTasksSelection" = VNum (choose_area_as_task e) ∧
    opt_get (sel st "isTasksGenerated") "divide_on_square" = VBool false ∧
    opt_get (sel st "isTasksGenerated") "task_splitting_algorithm" = VBool false) as Hgen.
  { intros st Hst. rewrite onChangeData_store, Hv, strict_eq_num_refl in Hst.
    cbn zeta in Hst. unfold CreateProjectSlice.reducer in Hst.
    unfold sel, CreateProjectSlice.field in *.
    destruct Hst as [-> | ->];
      (rewrite ?lookup_insert_ne by done); rewrite ?lookup_insert_eq;
      (rewrite ?lookup_insert_ne by done); rewrite ?lookup_insert_eq;
      cbn [default from_option id opt_get spread];
      (rewrite ?lookup_insert_ne by done); rewrite ?lookup_insert_eq; done. }
  apply Hgen. apply select_option_store.
Qed.

Lemma select_other_store e v n w :
  parseInt v = VNum n →
  n ≠ choose_area_as_task e →
  store (run (select_option e v) w) = <["splitTasksSelection" := VNum n]> (store w).
Proof.
  intros Hv Hne.
  change (run (select_option e v) w)
    with (run (onChangeData e v ≫= λ _, rerender_selection e
                 (sel (store w) "splitTasksSelection")) w).
  rewrite run_bind.
  set (w1 := run (onChangeData e v) w).
  assert (store w1 = <["splitTasksSelection" := VNum n]> (store w)) as Hw1.
  { unfold w1. rewrite onChangeData_store, Hv. cbn zeta.
    by rewrite (strict_eq_num_ne (choose_area_as_task e) n). }
  change (run (rerender_selection e (sel (store w) "splitTasksSelection")) w1)
    with (run (when (negb (same_value (sel (store w) "splitTasksSelection")
                             (sel (store w1) "splitTasksSelection")))
                 (effect_selection e (sel (store w1) "splitTasksSelection"))) w1).
  rewrite run_when. destruct (negb _); [|done].
  unfold effect_selection. rewrite run_when.
  unfold sel, CreateProjectSlice.field. rewrite Hw1, lookup_insert_eq.
  cbn [default from_option id].
  by rewrite (strict_eq_num_ne n (choose_area_as_task e)).
Qed.

(** X5.  Choosing "choose area as task" forgets that tasks were generated:
    SUBMIT is enabled while that option is selected, and when the user
    then goes (back) to "divide on square" SUBMIT is disabled until the
    tasks are generated again. *)
Theorem choose_area_resets_task_generation
    (e : task_split_type_enum) (w : world) (area square : string) :
  choose_area_as_task e ≠ divide_on_square e →
  choose_area_as_task e ≠ task_splitting_algorithm e →
  parseInt area = VNum (choose_area_as_task e) →
  parseInt square = VNum (divide_on_square e) →
  let w1 := run (select_option e area) w in
  let w2 := run (select_option e square) w1 in
  checkTasksGeneration e (sel (store w1) "isTasksGenerated")
    (sel (store w1) "splitTasksSelection") = Ok true ∧
  checkTasksGeneration e (sel (store w2) "isTasksGenerated")
    (sel (store w2) "splitTasksSelection") = Ok false.
Proof.
  intros Hsq Halg Harea Hsquare. cbn zeta.
  destruct (select_choose_area_store e area w Harea) as (Hsel & Hds & Hta).
  cbn zeta in Hsel, Hds, Hta.
  assert (∃ m, sel (store (run (select_option e area) w)) "isTasksGenerated" = VObj m)
    as [m Hm].
  { destruct (sel _ "isTasksGenerated"); try done. by eexists. }
  split.
  - unfold checkTasksGeneration. rewrite Hsel, Hm in *. cbn [get].
    rewrite Hds, Hta. cbn [truthy negb andb].
    by rewrite !strict_eq_num_ne.
  - rewrite (select_other_store e square (divide_on_square e)) by done.
    unfold checkTasksGeneration, sel, CreateProjectSlice.field in *.
    rewrite lookup_insert_eq, lookup_insert_ne by done. cbn [default from_option id].
    rewrite Hm in *. cbn [get]. rewrite Hds. cbn [truthy negb andb].
    by rewrite strict_eq_num_refl.
Qed.

Lemma choose_area_resets_task_generation_witness :
  let e := TaskSplitType 0 1 2 in
  let generated :=
    World (<["isTasksGenerated" :=
               CreateProjectSlice.obj [("divide_on_square", VBool true);
                                       ("task_splitting_algorithm", VBool false)]]>
           (<["splitTasksSelection" := VNum 0]> CreateProjectSlice.initialState))
          None ∅ 1 in
  checkTasksGeneration e (sel (store generated) "isTasksGenerated")
    (sel (store generated) "splitTasksSelection") = Ok true ∧
  checkTasksGeneration e
    (sel (store (run (select_option e "0") (run (select_option e "1") generated)))
       "isTasksGenerated")
    (sel (store (run (select_option e "0") (run (select_option e "1") generated)))
       "splitTasksSelection") = Ok false.
Proof.
  cbn zeta. split; [by vm_compute|].
  eapply (choose_area_resets_task_generation (TaskSplitType 0 1 2) _ "1" "0");
    (done || reflexivity).
Defined.

(** *** Polling across sessions *)

(** X6.  The module-level handle is reset only by the unmount cleanup.  While
    it is set (in particular after a session has failed, which cancels the
    interval but keeps the handle) the view neither requests the log for a
    new session nor starts an interval on a PENDING log; once the view has
    unmounted, the next session is requested again. *)
Theorem polling_restarts_only_after_unmount
    (url : string) (enc : value → string) (w : world) (h : nat) :
  generateProjectLogIntervalCb w = Some h →
  (∀ qr resp, effect_qr_success url qr resp w = (tt, w, [])) ∧
  (∀ qr lg resp, truthy qr = true → pending lg →
     effect_log url enc qr lg resp w = (tt, w, [])) ∧
  (∀ qr lg resp, truthy qr = true → terminal lg →
     generateProjectLogIntervalCb (run (effect_log url enc qr lg resp) w) = Some h) ∧
  (∀ qr resp, truthy qr = true →
     events (effect_qr_success url qr resp) (run cleanup_unmount w)
     = [ Dispatch (GenerateProjectLog url (opt_get resp "id") (opt_get qr "task_id"));
         SetToggleStatus true ]).
Proof.
  intros Hh. split_and!.
  - intros qr resp. unfold_C. destruct (truthy qr); [|done]. jsimpl. rewrite Hh.
    by destruct w.
  - intros qr lg resp Hqr Hp. by rewrite effect_log_pending, Hh.
  - intros qr lg resp Hqr Hterm.
    destruct (effect_log_terminal url enc qr lg resp w Hqr Hterm) as (_ & _ & ->). done.
  - intros qr resp Hqr. unfold_C. by rewrite Hqr.
Qed.

Lemma polling_restarts_only_after_unmount_witness :
  let failed :=
    run (effect_log "https://api" to_string session (log_with "FAILED") created) polling in
  timers failed = ∅ ∧
  effect_qr_success "https://api" session created failed = (tt, failed, []) ∧
  effect_log "https://api" to_string session (log_with "PENDING") created failed
  = (tt, failed, []).
Proof.
  cbn zeta.
  destruct (polling_restarts_only_after_unmount "https://api" to_string
              (run (effect_log "https://api" to_string session (log_with "FAILED") created)
                 polling) 1 eq_refl) as (Hqr & Hpend & _ & _).
  split_and!.
  - by vm_compute.
  - apply Hqr.
  - apply Hpend; reflexivity.
Defined.

(** X7.  A creation response that already says SUCCESS is stored as no session
    at all, so neither log effect does anything for it. *)
Theorem success_response_starts_no_polling
    (url : string) (enc : value → string) (w : world) (payload : value) :
  status_is payload "SUCCESS" = true →
  let w' := run (dispatch (CreateProject (GenerateProjectQRSuccess payload))) w in
  sel (store w') "generateQrSuccess" = VNull ∧
  (∀ resp, effect_qr_success url (sel (store w') "generateQrSuccess") resp w'
           = (tt, w', [])) ∧
  (∀ lg resp, effect_log url enc (sel (store w') "generateQrSuccess") lg resp w'
              = (tt, w', [])).
Proof.
  intros Hs. cbn zeta.
  remember (run (dispatch (CreateProject (GenerateProjectQRSuccess payload))) w) as w'
    eqn:Hw'.
  assert (sel (store w') "generateQrSuccess" = VNull) as ->.
  { subst w'. rewrite store_dispatch. unfold status_is in Hs.
    unfold CreateProjectSlice.root, CreateProjectSlice.reducer.
    destruct payload; try done. cbn [get]. rewrite Hs.
    unfold sel, CreateProjectSlice.field. by rewrite lookup_insert_eq. }
  split_and!; [done|..].
  - intros resp. reflexivity.
  - intros lg resp. reflexivity.
Qed.

Lemma success_response_starts_no_polling_witness :
  let w' := run (dispatch (CreateProject (GenerateProjectQRSuccess (log_with "SUCCESS"))))
              loaded in
  sel (store w') "generateQrSuccess" = VNull.
Proof.
  apply (success_response_starts_no_polling "https://api" to_string loaded
           (log_with "SUCCESS")).
  reflexivity.
Defined.

End SplitTasksMoreProps.

(** ** Hashtags of a submission *)
Module HashtagProps.
Import JS SplitTasks SplitTasksMore SplitTasksMoreProps.













End HashtagProps.

(** ** The reducers of the create-project slice *)
Module SliceProps.
Import JS CreateProjectSlice CreateProjectActions.

(** The fields [ClearCreateProjectFormData] writes, with the values it
    gives them. *)
Definition cleared : gmap string value :=
  list_to_map
  [ ("dividedTaskLoading", VBool false); ("dividedTaskGeojson", VNull);
    ("uploadAreaSelection", VStr ""); ("isUnsavedChanges", VBool false);
    ("generateProjectLogLoading", VBool false); ("generateProjectLog", VNull);
    ("drawnGeojson", VNull); ("taskSplittingGeojson", VNull);
    ("dataExtractGeojson", VNull); ("splitTasksSelection", VNull);
    ("totalAreaSelection", VNull); ("projectArea", VNull);
    ("projectDetails", obj initialProjectDetails) ].

Lemma clear_as_union (state : State) :
  reducer ClearCreateProjectFormData state = cleared ∪ state.
Proof.
  unfold reducer, cleared. cbn [list_to_map foldr uncurry fst snd].
  rewrite <- !insert_union_l. by rewrite (left_id_L ∅ (∪)).
Qed.

(** X9.  [ClearCreateProjectFormData] is idempotent; it gives twelve fields
    the value they have in [initialState] and leaves every field it does
    not list (among them [generateQrSuccess] and [projectDetailsResponse])
    as it was; [projectDetails] comes back without the
    [per_task_instructions] key that [initialState] has. *)
Theorem clear_form_data (state : State) :
  let after := reducer ClearCreateProjectFormData state in
  reducer ClearCreateProjectFormData after = after ∧
  (∀ k, k ∈ dom cleared → k ≠ "projectDetails" →
        field after k = field initialState k) ∧
  (∀ k, k ∉ dom cleared → field after k = field state k) ∧
  opt_get (field after "projectDetails") "per_task_instructions" = VUndefined ∧
  opt_get (field initialState "projectDetails") "per_task_instructions" = VStr "".
Proof.
  cbn zeta. rewrite !clear_as_union. split_and!.
  - by rewrite (assoc_L (∪)), (idemp_L (∪)).
  - intros k Hk Hne. unfold field. rewrite lookup_union.
    apply elem_of_dom in Hk as [v Hv]. rewrite Hv.
    assert (initialState !! k = Some v) as ->; [|by destruct (state !! k)].
    unfold cleared in Hv.
    repeat (apply lookup_insert_Some in Hv as [[<- <-]|[_ Hv]]; [done|]);
      cbn [list_to_map foldr uncurry fst snd] in Hv;
      repeat (apply lookup_insert_Some in Hv as [[<- <-]|[_ Hv]]; [done|]).
    by rewrite lookup_empty in Hv.
  - intros k Hk. unfold field. rewrite lookup_union.
    apply not_elem_of_dom in Hk. rewrite Hk. by destruct (state !! k).
  - unfold field. rewrite lookup_union.
    replace (cleared !! "projectDetails") with (Some (obj initialProjectDetails))
      by reflexivity.
    by destruct (state !! "projectDetails").
  - reflexivity.
Qed.

Lemma clear_form_data_witness :
  let kept := <["generateQrSuccess" := VStr "task"]> initialState in
  field (reducer ClearCreateProjectFormData
           (<["drawnGeojson" := VStr "area"]> kept)) "drawnGeojson" = VNull ∧
  field (reducer ClearCreateProjectFormData
           (<["drawnGeojson" := VStr "area"]> kept)) "generateQrSuccess" = VStr "task".
Proof.
  cbn zeta.
  destruct (clear_form_data
              (<["drawnGeojson" := VStr "area"]>
                 (<["generateQrSuccess" := VStr "task"]> initialState)))
    as (_ & Hreset & Hkeep & _).
  split.
  - rewrite (Hreset "drawnGeojson"); [reflexivity | by vm_compute | done].
  - rewrite (Hkeep "generateQrSuccess"); [reflexivity | by vm_compute].
Defined.

(** X10.  [SetIsTasksGenerated] and [SetProjectDetails] update one key of their
    object: the key reads back the value written, every other key of the
    object reads as before, and no other field of the slice changes. *)
Theorem keyed_setters (state : State) (key : string) (v : value) :
  let generated := reducer (SetIsTasksGenerated key v) state in
  let detailed := reducer (SetProjectDetails key v) state in
  opt_get (field generated "isTasksGenerated") key = v ∧
  opt_get (field detailed "projectDetails") key = v ∧
  (∀ other, other ≠ key →
     opt_get (field generated "isTasksGenerated") other
     = opt_get (field state "isTasksGenerated") other ∧
     opt_get (field detailed "projectDetails") other
     = opt_get (field state "projectDetails") other) ∧
  (∀ k, k ≠ "isTasksGenerated" → field generated k = field state k) ∧
  (∀ k, k ≠ "projectDetails" → field detailed k = field state k).
Proof.
  cbn zeta. unfold reducer, field.
  rewrite !lookup_insert_eq. cbn [default from_option id opt_get].
  rewrite !lookup_insert_eq. split_and!; try done.
  - intros other Hne. rewrite !lookup_insert_ne by done.
    split.
    + by destruct (default VUndefined (state !! "isTasksGenerated")).
    + by destruct (default VUndefined (state !! "projectDetails")).
  - intros k Hne. by rewrite lookup_insert_ne.
  - intros k Hne. by rewrite lookup_insert_ne.
Qed.

Lemma keyed_setters_witness :
  opt_get (field (reducer (SetIsTasksGenerated "divide_on_square" (VBool true))
                    initialState) "isTasksGenerated") "task_splitting_algorithm"
  = VBool false.
Proof.
  destruct (keyed_setters initialState "divide_on_square" (VBool true))
    as (_ & _ & Hother & _).
  destruct (Hother "task_splitting_algorithm") as [-> _]; [done | reflexivity].
Defined.

End SliceProps.

(** ** More on the project API thunks *)
Module ProjectApiMoreProps.
Import JS Redux ProjectActions ProjectApi ProjectApiProps.

(** The files a trace saves, as (object URL, download name). *)
Definition downloads (t : list event) : list (value * value) :=
  omap (λ ev, match ev with
              | AnchorClick href name => Some (href, name)
              | _ => None
              end) t.

(** The thunks a trace starts. *)
Definition spawned (t : list event) : list (list event) :=
  omap (λ ev, match ev with Spawn sub => Some sub | _ => None end) t.

Ltac unfold_M :=
  unfold try_catch, try_catch_finally, trace, outcome, axios_get, save_as,
    dispatch, dispatch_thunk, tell, lift, mbind, M_bind, bind, mret, M_ret, ret.

(** X11.  [ProjectById] is all or nothing.  It never rejects and always ends
    with [SetNewProjectTrigger]; before that it has either stored nothing
    and left the loading flag raised, or stored both the task boundaries
    and the project info and lowered the flag. *)
Theorem ProjectById_all_or_nothing
    (api : string) (server : string → result value)
    (task_priority_str : value → value) (existingProjectList projectId : value) :
  let thunk := ProjectById api server task_priority_str existingProjectList projectId in
  outcome thunk = Ok tt ∧
  ((state_writes (trace thunk) = [Project SetNewProjectTrigger] ∧
    flag_writes projectDetailsLoading (trace thunk) = [true]) ∨
   (∃ boundaries info,
      state_writes (trace thunk)
      = [ Project (SetProjectTaskBoundries boundaries);
          Project (SetProjectInfo info);
          Project SetNewProjectTrigger ] ∧
      flag_writes projectDetailsLoading (trace thunk) = [true; false])).
Proof.
  cbn zeta. unfold ProjectById. unfold_M.
  cbn -[get js_map to_string String.append projectInfo].
  destruct (server _) as [project|]; [|by split; [|left]].
  cbn -[get js_map to_string String.append projectInfo].
  destruct (server _) as [taskList|]; [|by split; [|left]].
  cbn -[get js_map to_string String.append projectInfo].
  destruct (server _) as [taskBbox|]; [|by split; [|left]].
  cbn -[get js_map to_string String.append projectInfo].
  destruct (get project "data") as [projectResp|]; [|by split; [|left]].
  cbn -[get js_map to_string String.append projectInfo].
  destruct (get taskList "data") as [taskListResp|]; [|by split; [|left]].
  cbn -[get js_map to_string String.append projectInfo].
  destruct (js_map taskListResp _) as [persistingValues|]; [|by split; [|left]].
  cbn -[get js_map to_string String.append projectInfo].
  destruct (get projectResp "id") as [id|]; [|by split; [|left]].
  cbn -[get js_map to_string String.append projectInfo].
  destruct (js_map persistingValues _) as [merged|]; [|by split; [|left]].
  cbn -[get js_map to_string String.append projectInfo].
  split; [done|]. right. by eexists _, _.
Qed.

Lemma map_result_throw {A B} (f : A → result B) l x e :
  x ∈ l → f x = Throw e → ∃ e', map_result f l = Throw e'.
Proof.
  intros Hin Hx. induction Hin as [x l|x y l _ IH]; simpl.
  - rewrite Hx. by eexists.
  - destruct (f y); [|by eexists]. destruct (IH Hx) as [e' ->]. by eexists.
Qed.

Lemma map_result_elem {A B} (f : A → result B) l l' x :
  x ∈ l → map_result f l = Ok l' → ∃ y, y ∈ l' ∧ f x = Ok y.
Proof.
  intros Hin. revert l'. induction Hin as [x l|x y l _ IH]; intros l'; simpl.
  - destruct (f x) as [y|]; [|done]. destruct (map_result f l); [|done].
    intros [= <-]. exists y. split; [apply elem_of_cons; by left | done].
  - destruct (f y) as [z|]; [|done]. destruct (map_result f l) as [l0|]; [|done].
    intros [= <-]. destruct (IH l0 eq_refl) as (y' & Hy' & Hf).
    exists y'. split; [apply elem_of_cons; by right | done].
Qed.

Lemma find_by_id_missing bs id :
  (∀ b, b ∈ bs → strict_eq (opt_get b "id") id = false) →
  find_by_id bs id = Ok VUndefined ∨ ∃ e, find_by_id bs id = Throw e.
Proof.
  induction bs as [|b bs IH]; intros Hall; simpl; [by left|].
  destruct (get b "id") as [tid|] eqn:Hb; [|right; by eexists].
  assert (tid = opt_get b "id") as -> by (by destruct b; simplify_eq/=).
  rewrite Hall by (apply elem_of_cons; by left).
  apply IH. intros b' Hb'. apply Hall. apply elem_of_cons. by right.
Qed.

Lemma merge_bbox_missing taskBbox bs pv :
  opt_get taskBbox "data" = VArr bs →
  (∀ b, b ∈ bs → strict_eq (opt_get b "id") (opt_get pv "id") = false) →
  ∃ e, merge_bbox taskBbox pv = Throw e.
Proof.
  intros Hdata Hall. unfold merge_bbox, rbind.
  destruct taskBbox; try done. cbn [get]. rewrite Hdata. cbn [js_find_by_id].
  destruct (find_by_id_missing bs (opt_get pv "id") Hall) as [-> | [e ->]];
    by eexists.
Qed.

Lemma persisting_id tps data pv :
  persisting tps data = Ok pv → opt_get pv "id" = opt_get data "id".
Proof.
  unfold persisting, rbind. destruct (get data "id") as [id|] eqn:Hid; [|done].
  intros [= <-]. destruct data; simplify_eq/=; reflexivity.
Qed.

(** X12.  A task without a point on the task-centroid list makes the whole
    project fail to load: nothing is stored and the loading flag stays
    raised. *)
Theorem ProjectById_task_without_point
    (api : string) (server : string → result value)
    (task_priority_str : value → value) (existingProjectList projectId : value)
    (project taskList taskBbox task : value) (tasks bs : list value) :
  server (api +:+ "/projects/" +:+ to_string projectId) = Ok project →
  server (api +:+ "/tasks/task-list?project_id=" +:+ to_string projectId) = Ok taskList →
  server (api +:+ "/tasks/point_on_surface?project_id=" +:+ to_string projectId)
  = Ok taskBbox →
  opt_get taskList "data" = VArr tasks →
  opt_get taskBbox "data" = VArr bs →
  task ∈ tasks →
  (∀ b, b ∈ bs → strict_eq (opt_get b "id") (opt_get task "id") = false) →
  let thunk := ProjectById api server task_priority_str existingProjectList projectId in
  state_writes (trace thunk) = [Project SetNewProjectTrigger] ∧
  flag_writes projectDetailsLoading (trace thunk) = [true].
Proof.
  intros Hp Ht Hb Htasks Hbs Hin Hmissing. cbn zeta.
  unfold ProjectById. unfold_M. rewrite Hp, Ht, Hb.
  cbn -[get js_map to_string String.append projectInfo].
  destruct (get project "data") as [projectResp|]; [|done].
  cbn -[get js_map to_string String.append projectInfo].
  assert (get taskList "data" = Ok (VArr tasks)) as ->.
  { destruct taskList; simplify_eq/=. by rewrite Htasks. }
  cbn -[get to_string String.append projectInfo map_result].
  destruct (map_result (persisting task_priority_str) tasks) as [pvs|] eqn:Hmap; [|done].
  cbn -[get to_string String.append projectInfo map_result].
  destruct (get projectResp "id") as [id|]; [|done].
  cbn -[get to_string String.append projectInfo map_result].
  destruct (map_result_elem _ _ _ _ Hin Hmap) as (pv & Hpv & Hf).
  apply persisting_id in Hf.
  destruct (merge_bbox_missing taskBbox bs pv Hbs) as [e He].
  { by rewrite Hf. }
  destruct (map_result_throw _ _ _ _ Hpv He) as [e' ->]. done.
Qed.

(** Two tasks, a point only for the first. *)
Definition answers (url : string) : result value :=
  if String.eqb url "https://api/projects/12" then
    Ok (CreateProjectSlice.obj [("data", CreateProjectSlice.obj [("id", VNum 12)])])
  else if String.eqb url "https://api/tasks/task-list?project_id=12" then
    Ok (CreateProjectSlice.obj
          [("data", VArr [CreateProjectSlice.obj [("id", VNum 1)];
                          CreateProjectSlice.obj [("id", VNum 2)]])])
  else
    Ok (CreateProjectSlice.obj
          [("data", VArr [CreateProjectSlice.obj
                            [("id", VNum 1); ("point", VArr [VArr [VNum 85; VNum 27]])]])]).

Lemma ProjectById_task_without_point_witness :
  flag_writes projectDetailsLoading
    (trace (ProjectById "https://api" answers id VNull (VNum 12))) = [true].
Proof.
  eapply (ProjectById_task_without_point "https://api" answers id VNull (VNum 12)
            _ _ _ (CreateProjectSlice.obj [("id", VNum 2)])).
  - reflexivity.
  - reflexivity.
  - reflexivity.
  - reflexivity.
  - reflexivity.
  - apply elem_of_cons. right. apply elem_of_cons. by left.
  - intros b [->|Hb]%elem_of_cons; [reflexivity|]. by apply elem_of_nil in Hb.
Defined.

(** X13.  [GetTilesList] and [GetProjectDashboard] write their data to the
    store exactly when the request is answered, and whatever happens their
    loading flag goes true, false, false. *)
Theorem list_and_dashboard (server : string → result value) (url : string) :
  let stored (make : value → ProjectActions.t) :=
    match server url with
    | Ok response =>
        match get response "data" with
        | Ok data => [Project (make data)]
        | Throw _ => []
        end
    | Throw _ => []
    end in
  state_writes (trace (GetTilesList server url)) = stored SetTilesList ∧
  flag_writes tilesListLoading (trace (GetTilesList server url)) = [true; false; false] ∧
  state_writes (trace (GetProjectDashboard server url)) = stored SetProjectDashboardDetail ∧
  flag_writes projectDashboardLoading (trace (GetProjectDashboard server url))
  = [true; false; false].
Proof.
  cbn zeta. unfold GetTilesList, GetProjectDashboard. unfold_M.
  destruct (server url) as [response|]; [|done].
  cbn -[get]. by destruct (get response "data").
Qed.

(** X14.  [GenerateProjectTiles] refreshes the tile list exactly when the
    generation request is answered: it then starts [GetTilesList] on the
    tile list of the project, once; when the request is rejected it starts
    nothing.  Either way its own flag goes true, false, false. *)
Theorem tiles_refreshed_after_generation
    (api : string) (server : string → result value) (url : string) (payload : value) :
  let thunk := GenerateProjectTiles api server url payload in
  spawned (trace thunk)
  = match server url with
    | Ok _ => [trace (GetTilesList server
                        (api +:+ "/projects/tiles_list/" +:+ to_string payload +:+ "/"))]
    | Throw _ => []
    end ∧
  flag_writes generateProjectTilesLoading (trace thunk) = [true; false; false].
Proof.
  cbn zeta. unfold GenerateProjectTiles. unfold_M.
  destruct (server url) as [response|]; [|done].
  cbn -[GetTilesList to_string String.append]. done.
Qed.

(** X15.  A tile download whose response carries no [content-disposition]
    header saves nothing, although the tiles arrived. *)
Theorem tile_without_header_not_saved
    (server : string → result value) (createObjectURL : value → result value)
    (url : string) (payload response headers : value) :
  server url = Ok response →
  get response "headers" = Ok headers →
  opt_get headers "content-disposition" = VUndefined →
  downloads (trace (DownloadTile server createObjectURL url payload)) = [].
Proof.
  intros Hs Hh Hcd. unfold DownloadTile. unfold_M. rewrite Hs.
  cbn -[get filename_of].
  assert (∃ e, filename_of response = Throw e) as [e ->]; [|done].
  unfold filename_of, rbind. rewrite Hh.
  destruct headers; simplify_eq/=; try by eexists.
  rewrite Hcd. by eexists.
Qed.

Definition bare (url : string) : result value :=
  Ok (CreateProjectSlice.obj
        [("data", VStr "blob"); ("headers", CreateProjectSlice.obj [])]).

Lemma tile_without_header_not_saved_witness :
  downloads (trace (DownloadTile bare object_url "/tiles/3" (VStr "mbtiles"))) = [] ∧
  downloads (trace (DownloadTile serving object_url "/tiles/3" (VStr "mbtiles")))
  = [(VStr "blob:1", VStr "tiles.mbtiles")].
Proof.
  split; [|reflexivity].
  eapply (tile_without_header_not_saved bare object_url "/tiles/3"); reflexivity.
Defined.

End ProjectApiMoreProps.

Module SubmissionsTableMoreProps.
Import JS Redux SubmissionsTableMore.



End SubmissionsTableMoreProps.

Module TaskSubmissionsMapProps.
Import JS TaskSubmissionsMap.

(** The data of a view whose tasks all report an integer count. *)
Definition counted (ds : list value) (counts : list Z) : Prop :=
  Forall2 (λ d c, opt_get d "count" = VNum c) ds counts.

(** The largest of the counts. *)
Fixpoint max_of (c : Z) (counts : list Z) : Z :=
  match counts with
  | [] => c
  | c' :: rest => Z.max c (max_of c' rest)
  end.

(** The top of the legend: 10 while no task has more than 4 submissions,
    the largest count otherwise. *)
Definition legend_top (c : Z) (counts : list Z) : Z :=
  if (max_of c counts <=? 4)%Z then 10%Z else max_of c counts.

Definition legend (a b k top : Z) : value :=
  VArr [ color_code (VNum 0) (VNum 0) "#FF4538";
         color_code (VNum 1) (VNum a) "#A9D2F3";
         color_code (VNum a) (VNum b) "#7CB2E8";
         color_code (VNum b) (VNum k) "#4A90D9";
         color_code (VNum k) (VNum top) "#0062AC" ].

Lemma counted_counts ds counts :
  counted ds counts → map_result (λ d, get d "count") ds = Ok (VNum <$> counts).
Proof.
  induction 1 as [|d c ds counts Hd _ IH]; [done|].
  simpl. destruct d; simplify_eq/=. by rewrite Hd, IH.
Qed.

Lemma js_max_max_of c counts :
  js_max (VNum c) (VNum <$> counts) = Some (max_of c counts).
Proof.
  revert c. induction counts as [|c' counts IH]; intros c; [done|].
  cbn [fmap list_fmap js_max max_of to_number]. by rewrite IH.
Qed.

Lemma max_of_ge c counts x : x ∈ c :: counts → (x ≤ max_of c counts)%Z.
Proof.
  revert c. induction counts as [|c' counts IH]; intros c.
  - by intros ->%list_elem_of_singleton.
  - intros [->|Hin]%elem_of_cons; simpl; [lia|]. specialize (IH _ Hin). lia.
Qed.

Lemma legend_top_ge c counts :
  (5 ≤ legend_top c counts)%Z ∧ (max_of c counts ≤ legend_top c counts)%Z.
Proof. unfold legend_top. destruct (max_of c counts <=? 4)%Z eqn:H; lia. Qed.

Lemma legend_shape d ds c counts :
  counted (d :: ds) (c :: counts) →
  ∃ a b k,
    legendColorArray (VArr (d :: ds)) = Ok (legend a b k (legend_top c counts)) ∧
    (1 ≤ a ≤ b)%Z ∧ (b ≤ k ≤ legend_top c counts)%Z.
Proof.
  intros Hc. unfold legendColorArray, colorRange.
  rewrite (counted_counts _ _ Hc).
  cbn [fmap list_fmap]. rewrite js_max_max_of.
  assert (strict_eq (opt_get_length (VArr (d :: ds))) (VNum 0) = false) as ->.
  { cbn [opt_get_length List.length strict_eq]. apply Z.eqb_neq. lia. }
  cbn [fmap option_fmap option_map push_codes colorCodesKeys mbind option_bind
       of_number].
  fold (legend_top c counts).
  destruct (legend_top_ge c counts) as [Htop _].
  unfold round_ratio. remember (legend_top c counts) as top eqn:E. clear E.
  exists ((2 * (4 + (top - 1)) + 4) / (2 * 4))%Z,
         ((2 * (4 + (top - 1) + (top - 1)) + 4) / (2 * 4))%Z,
         ((2 * (4 + (top - 1) + (top - 1) + (top - 1)) + 4) / (2 * 4))%Z.
  split.
  - unfold legend.
    replace ((2 * (4 + (top - 1) + (top - 1) + (top - 1) + (top - 1)) + 4) / (2 * 4))%Z
      with top by (apply Z.div_unique with (r := 4%Z); lia).
    reflexivity.
  - split_and!.
    all: first [ apply Z.div_le_lower_bound; lia
               | apply Z.div_le_mono; lia
               | apply Z.div_le_upper_bound; lia ].
Qed.

(** X17.  For tasks with integer counts the legend has five entries: red for
    exactly 0, then the four palette colours over ranges that start at 1,
    each beginning where the previous one ends, up to the top of the
    legend: the largest count, or 10 when no count exceeds 4. *)
Theorem legend_ranges (d : value) (ds : list value) (c : Z) (counts : list Z) :
  counted (d :: ds) (c :: counts) →
  ∃ a b k,
    legendColorArray (VArr (d :: ds))
    = Ok (VArr [ color_code (VNum 0) (VNum 0) "#FF4538";
                 color_code (VNum 1) (VNum a) "#A9D2F3";
                 color_code (VNum a) (VNum b) "#7CB2E8";
                 color_code (VNum b) (VNum k) "#4A90D9";
                 color_code (VNum k) (VNum (legend_top c counts)) "#0062AC" ]) ∧
    (1 ≤ a ≤ b)%Z ∧ (b ≤ k ≤ legend_top c counts)%Z ∧
    (5 ≤ legend_top c counts)%Z ∧ (max_of c counts ≤ legend_top c counts)%Z.
Proof.
  intros Hc. destruct (legend_shape _ _ _ _ Hc) as (a & b & k & H & Ha & Hk).
  exists a, b, k. split; [exact H|]. pose proof (legend_top_ge c counts). tauto.
Qed.

Definition two_tasks : list value :=
  [CreateProjectSlice.obj [("code", VNum 1); ("count", VNum 0)];
   CreateProjectSlice.obj [("code", VNum 2); ("count", VNum 12)]].

Lemma legend_ranges_witness :
  ∃ a b k,
    legendColorArray (VArr two_tasks)
    = Ok (VArr [ color_code (VNum 0) (VNum 0) "#FF4538";
                 color_code (VNum 1) (VNum a) "#A9D2F3";
                 color_code (VNum a) (VNum b) "#7CB2E8";
                 color_code (VNum b) (VNum k) "#4A90D9";
                 color_code (VNum k) (VNum 12) "#0062AC" ]) ∧
    (1 ≤ a ≤ b)%Z ∧ (b ≤ k ≤ 12)%Z.
Proof.
  destruct (legend_ranges
              (CreateProjectSlice.obj [("code", VNum 1); ("count", VNum 0)])
              [CreateProjectSlice.obj [("code", VNum 2); ("count", VNum 12)]]
              0 [12]%Z) as (a & b & k & H & Ha & Hk & _).
  - repeat constructor.
  - exists a, b, k. split; [exact H|]. split; [exact Ha | exact Hk].
Defined.

Lemma get_color_code mn mx col :
  get (color_code mn mx col) "min" = Ok mn ∧
  opt_get (color_code mn mx col) "max" = mx ∧
  opt_get (color_code mn mx col) "color" = VStr col.
Proof. by vm_compute. Qed.

Lemma choropleth_legend (v a b k top : Z) :
  (1 ≤ a ≤ b)%Z → (b ≤ k ≤ top)%Z →
  ∃ colour,
    getChoroplethColor (VNum v) (legend a b k top) = Ok (VStr colour) ∧
    (colour = "#FF4538" ∨ colour ∈ colorCodesKeys) ∧
    (colour = "#FF4538" ↔ (v ≤ 0 ∨ top < v)%Z).
Proof.
  intros Ha Hk. unfold getChoroplethColor, legend. cbn [foldl].
  repeat match goal with
         | |- context [get (color_code ?mn ?mx ?col) "min"] =>
             destruct (get_color_code mn mx col) as (-> & -> & ->)
         end.
  unfold js_le. cbn [to_number].
  repeat match goal with
         | |- context [(?x <=? ?y)%Z] => destruct (Z.leb_spec x y)
         end; cbn [andb]; try lia.
  all: eexists; split; [reflexivity|]; unfold colorCodesKeys.
  all: split; [set_solver|]; split; [try done; intros; lia|intros; try done; lia].
Qed.

(** X18.  On the map a task with an integer count is painted red exactly when
    it has no submission (a count of 0 or less), and in one of the four
    palette colours of the legend otherwise. *)
Theorem task_red_iff_no_submission
    (d : value) (ds : list value) (c : Z) (counts : list Z) (legend : value) (v : Z) :
  counted (d :: ds) (c :: counts) →
  legendColorArray (VArr (d :: ds)) = Ok legend →
  v ∈ c :: counts →
  ∃ colour,
    getChoroplethColor (VNum v) legend = Ok (VStr colour) ∧
    (colour = "#FF4538" ↔ (v ≤ 0)%Z) ∧
    ((0 < v)%Z → colour ∈ colorCodesKeys).
Proof.
  intros Hc Hl Hv.
  destruct (legend_shape _ _ _ _ Hc) as (a & b & k & H & Ha & Hk).
  rewrite H in Hl. injection Hl as <-.
  destruct (choropleth_legend v a b k _ Ha Hk) as (colour & -> & Hpal & Hred).
  pose proof (max_of_ge _ _ _ Hv). pose proof (legend_top_ge c counts).
  exists colour. split; [done|]. split.
  - rewrite Hred. lia.
  - intros Hpos. destruct Hpal as [->|]; [|done].
    assert (v ≤ 0 ∨ legend_top c counts < v)%Z by by apply Hred. lia.
Qed.

Lemma task_red_iff_no_submission_witness :
  match legendColorArray (VArr two_tasks) with
  | Ok legend =>
      ∃ colour, getChoroplethColor (VNum 12) legend = Ok (VStr colour) ∧
                colour ∈ colorCodesKeys
  | Throw _ => False
  end.
Proof.
  destruct (legendColorArray (VArr two_tasks)) as [legend|e] eqn:Hl;
    [|by vm_compute in Hl].
  destruct (task_red_iff_no_submission
              (CreateProjectSlice.obj [("code", VNum 1); ("count", VNum 0)])
              [CreateProjectSlice.obj [("code", VNum 2); ("count", VNum 12)]]
              0 [12]%Z legend 12) as (colour & Hc & _ & Hpal).
  - repeat constructor.
  - exact Hl.
  - set_solver.
  - exists colour. split; [exact Hc | apply Hpal; lia].
Defined.

(** X19.  A feature with no entry in the counts ([getFederal?.count] is
    [undefined]) is painted red, whatever the legend holds. *)
Theorem task_without_count_red (codes : list value) :
  Forall (λ code, code ≠ VUndefined ∧ code ≠ VNull) codes →
  getChoroplethColor VUndefined (VArr codes) = Ok (VStr "#FF4538").
Proof.
  intros Hcodes. unfold getChoroplethColor.
  generalize (VStr "#FF4538") as colour.
  induction Hcodes as [|code codes [Hu Hn] _ IH]; intros colour; [done|].
  cbn [foldl].
  assert (∀ a, js_le a VUndefined = false) as Hle.
  { intros a. unfold js_le. simpl. by destruct (to_number a). }
  destruct code; try done; cbn [get]; rewrite Hle; apply IH.
Qed.

Lemma task_without_count_red_witness :
  getChoroplethColor VUndefined
    (VArr [color_code (VNum 0) (VNum 0) "#FF4538";
           color_code VUndefined VUndefined "#A9D2F3"])
  = Ok (VStr "#FF4538").
Proof. apply task_without_count_red. by repeat constructor. Defined.

End TaskSubmissionsMapProps.

(** ** The VectorLayer component: re-renders and removal *)
Module VectorLayerMoreProps.
Import VectorLayer VectorLayerProps.

Lemma render_last p vl st :
  last (modify_slot (render p vl st).1) = Some (map p, vl, onModify p) ∧
  last (draw_slot (render p vl st).1) = Some (map p, vl, onDraw p).
Proof.
  destruct st as [inst pg]. rewrite render_unfold. cbn zeta.
  destruct (changed (modify_slot inst) _) eqn:Hcm;
    destruct (changed (draw_slot inst) _) eqn:Hcd.
  all: try apply changed_false in Hcm; try apply changed_false in Hcd.
  all: by cbn [fst modify_slot draw_slot last].
Qed.

Lemma changed_last s d : last s = Some d → changed s d = false.
Proof. unfold changed. intros ->. by rewrite bool_decide_eq_true_2. Qed.

(** X20.  A render that sees the props and the vector layer of the render
    before it runs no effect and no cleanup: the instance and the
    interactions on the map stay as they are. *)
Theorem rerender_same_props_is_noop
    (p : props) (vectorLayer : option nat) (st : instance * page) :
  render p vectorLayer (render p vectorLayer st) = render p vectorLayer st.
Proof.
  destruct (render_last p vectorLayer st) as [Hm Hd].
  destruct (render p vectorLayer st) as [inst pg]. cbn [fst] in *.
  rewrite render_unfold. cbn zeta.
  rewrite (changed_last _ _ Hm), (changed_last _ _ Hd).
  cbn [id app List.length Nat.add]. rewrite app_nil_r.
  by destruct inst, pg.
Qed.

(** X21.  When the instance is removed, no interaction it registered stays on
    the map, whatever renders it went through. *)
Theorem unmount_removes_every_interaction (history : list (props * option nat)) :
  registry (unmount (replay history)).2 = [] ∧
  (unmount (replay history)).1 = unmounted.
Proof.
  destruct (replay_consistent history) as [(_ & Hreg & _) _].
  destruct (replay history) as [inst pg]. cbn [fst snd unmount registry] in *.
  split; [|done].
  destruct (cleanup (draw_slot inst) _) as [|x rest] eqn:E; [done|]. exfalso.
  assert (x ∈ cleanup (draw_slot inst) (cleanup (modify_slot inst) (registry pg)))
    as Hin by (rewrite E; apply elem_of_cons; by left).
  apply elem_of_cleanup in Hin as [[Hx Hm]%elem_of_cleanup Hd].
  apply Hreg in Hx as [Hx|Hx]; [by eapply Hm | by eapply Hd].
Qed.

End VectorLayerMoreProps.

Module OrganisationProps.
Import JS Redux Organisation.

Section View.
Variable VITE_API_URL : string.
Variable admin : bool.

Local Abbreviation after_clicks := (after_clicks VITE_API_URL admin).
Local Abbreviation after_click := (after_click VITE_API_URL admin).
Local Abbreviation visit := (visit VITE_API_URL admin).

Lemma requests_app name t t' :
  requests name (t ++ t') = requests name t ++ requests name t'.
Proof. apply List.filter_app. Qed.

Lemma step_my_orgs st c :
  requests "MyOrganisationDataService" (after_click st c).2
  = if bool_decide (c = MyOrganizations) && negb (myOrgsLoaded st)
    then [Dispatch (Service "MyOrganisationDataService"
                      [VStr (VITE_API_URL +:+ "/organisation/my-organisations")])]
    else [].
Proof.
  destruct st as [tab v l], c, admin, l, v, (tab =? 0)%Z eqn:E;
    unfold Organisation.after_click, shown; cbn; rewrite ?E; by cbn.
Qed.

Lemma step_loaded st c :
  myOrgsLoaded (after_click st c).1
  = myOrgsLoaded st || bool_decide (c = MyOrganizations).
Proof.
  destruct st as [tab v l], c, admin, l, v, (tab =? 0)%Z eqn:E;
    unfold Organisation.after_click, shown; cbn; rewrite ?E; by cbn.
Qed.

Lemma run_my_orgs clicks st :
  requests "MyOrganisationDataService" (after_clicks st clicks).2
  = if negb (myOrgsLoaded st) && bool_decide (MyOrganizations ∈ clicks)
    then [Dispatch (Service "MyOrganisationDataService"
                      [VStr (VITE_API_URL +:+ "/organisation/my-organisations")])]
    else [].
Proof.
  revert st. induction clicks as [|c clicks IH]; intros st.
  - cbn [Organisation.after_clicks snd]. rewrite bool_decide_eq_false_2 by apply not_elem_of_nil.
    by rewrite andb_false_r.
  - cbn [Organisation.after_clicks].
    pose proof (step_my_orgs st c) as Hs. pose proof (step_loaded st c) as Hl.
    destruct (after_click st c) as [st' t]. specialize (IH st').
    destruct (after_clicks st' clicks) as [st'' t']. cbn [fst snd] in *.
    rewrite requests_app, Hs, IH, Hl.
    destruct (decide (c = MyOrganizations)) as [->|Hne].
    + rewrite (bool_decide_eq_true_2 (MyOrganizations = MyOrganizations)) by done.
      rewrite (bool_decide_eq_true_2 (MyOrganizations ∈ _ :: _))
        by (apply elem_of_cons; by left).
      rewrite orb_true_r. by destruct (myOrgsLoaded st).
    + rewrite (bool_decide_eq_false_2 (c = MyOrganizations)) by done.
      rewrite orb_false_r. cbn [andb app].
      apply (f_equal (λ b : bool, if negb (myOrgsLoaded st) && b then _ else _)).
      apply bool_decide_ext. rewrite elem_of_cons. naive_solver.
Qed.

(** X22.  Whatever tabs are clicked, and however often, the user's own
    organisations are requested once, by the first click on "My
    Organizations", and not at all without such a click. *)
Theorem my_organisations_requested_once (clicks : list click) :
  requests "MyOrganisationDataService" (visit clicks).2
  = if bool_decide (MyOrganizations ∈ clicks)
    then [Dispatch (Service "MyOrganisationDataService"
                      [VStr (VITE_API_URL +:+ "/organisation/my-organisations")])]
    else [].
Proof.
  unfold Organisation.visit. pose proof (run_my_orgs clicks initial) as H.
  destruct (after_clicks initial clicks) as [st t]. cbn [snd] in *.
  rewrite requests_app, H. by cbn.
Qed.

(** The URL the effect on [verifiedTab] asks for. *)
Definition list_url (verified : bool) : string :=
  VITE_API_URL +:+ (if verified then "/organisation/" else "/organisation/unapproved/").

Definition list_request (verified : bool) : event :=
  Dispatch (Service "OrganisationDataService" [VStr (list_url verified)]).

Lemma effect_request st :
  effect_verifiedTab VITE_API_URL st = [list_request (verifiedTab st)].
Proof. unfold effect_verifiedTab, list_request, list_url. by destruct (verifiedTab st). Qed.

Lemma step_list st c :
  requests "OrganisationDataService" (after_click st c).2
  = if bool_decide (verifiedTab (after_click st c).1 = verifiedTab st) then []
    else [list_request (verifiedTab (after_click st c).1)].
Proof.
  destruct st as [tab v l], c, admin, l, v, (tab =? 0)%Z eqn:E;
    unfold Organisation.after_click, shown; cbn; rewrite ?E; by cbn.
Qed.

Lemma last_cons {A} (a d : A) l : List.last (a :: l) d = List.last l a.
Proof.
  revert a d. induction l as [|b l IH]; intros a d; [done|].
  change (List.last (a :: b :: l) d) with (List.last (b :: l) d).
  by rewrite !IH.
Qed.

Lemma run_list clicks st :
  List.last (requests "OrganisationDataService" (after_clicks st clicks).2)
            (list_request (verifiedTab st))
  = list_request (verifiedTab (after_clicks st clicks).1).
Proof.
  revert st. induction clicks as [|c clicks IH]; intros st; [done|].
  cbn [Organisation.after_clicks]. pose proof (step_list st c) as Hs.
  destruct (after_click st c) as [st' t]. specialize (IH st').
  destruct (after_clicks st' clicks) as [st'' t']. cbn [fst snd] in *.
  rewrite requests_app, Hs. case_bool_decide as Hv.
  - cbn [app]. by rewrite <- Hv.
  - rewrite <- IH. cbn [app]. apply last_cons.
Qed.

(** X23.  The list of organisations on the page is the one of the selected
    verification tab: the latest request for organisations is always the
    one for the current [verifiedTab]. *)
Theorem latest_request_matches_verified_tab (clicks : list click) :
  ∃ earlier,
    requests "OrganisationDataService" (visit clicks).2
    = earlier ++ [list_request (verifiedTab (visit clicks).1)].
Proof.
  unfold Organisation.visit. pose proof (run_list clicks initial) as H.
  destruct (after_clicks initial clicks) as [st t]. cbn [fst snd] in *.
  rewrite requests_app, effect_request. cbn [verifiedTab initial] in *.
  change (requests _ [list_request true]) with [list_request true].
  destruct (requests "OrganisationDataService" t) as [|e l] using rev_ind.
  - cbn in H. exists []. by rewrite <- H.
  - rewrite last_last in H. exists ([list_request true] ++ l).
    by rewrite H, app_assoc.
Qed.

End View.

(** X24.  A user who is not an admin never leaves the verified tab: the one
    request for organisations is the one made when the view appears, and
    the organisations waiting for approval are never asked for. *)
Theorem non_admin_sees_verified_only (VITE_API_URL : string) (clicks : list click) :
  requests "OrganisationDataService" (visit VITE_API_URL false clicks).2
  = [Dispatch (Service "OrganisationDataService"
                 [VStr (VITE_API_URL +:+ "/organisation/")])] ∧
  verifiedTab (visit VITE_API_URL false clicks).1 = true.
Proof.
  unfold visit.
  assert (∀ st, verifiedTab st = true →
            requests "OrganisationDataService" (after_clicks VITE_API_URL false st clicks).2 = [] ∧
            verifiedTab (after_clicks VITE_API_URL false st clicks).1 = true) as H.
  { induction clicks as [|c clicks IH]; intros st Hst; [done|].
    cbn [after_clicks].
    assert (requests "OrganisationDataService" (after_click VITE_API_URL false st c).2 = [] ∧
            verifiedTab (after_click VITE_API_URL false st c).1 = true) as [Ht Hv].
    { destruct st as [tab v l]. cbn in Hst. subst v.
      destruct c, l; by cbn. }
    destruct (after_click VITE_API_URL false st c) as [st' t].
    destruct (IH st' Hv) as [Ht' Hv'].
    destruct (after_clicks VITE_API_URL false st' clicks) as [st'' t']. cbn [fst snd] in *.
    by rewrite requests_app, Ht, Ht'. }
  destruct (H initial eq_refl) as [Ht Hv].
  destruct (after_clicks VITE_API_URL false initial clicks) as [st t]. cbn [fst snd] in *.
  by rewrite requests_app, Ht.
Qed.

End OrganisationProps.
